(** * medhack: the pneumonia inference service and the command-line predictor

  A shallow embedding of [pneumonia-api/main.py] and [predict.py].

  - A Python [float] is an IEEE 754 binary64 value: the kernel's primitive
    [float].  The comparison [a > b] of the source is [b <? a]; it is false
    as soon as one side is NaN.
  - A Python [str] is a [string]; [None] or a [str] is an [option string].
  - Code that raises is written in a small error monad ([Py.result]), code
    that also reads or writes the module's globals in a state monad over it;
    the state keeps a log of the calls that leave the process.
  - Calls into PIL, numpy, base64, keras, pickle and json are the fields of
    a [Runtime] class; what PIL and numpy promise is the class [RuntimeOk].
  - Definitions come first ([PyFloat], [Py], [Main], [Api], [Cli], [Spec],
    [BigStep]), the properties after them. *)

From Stdlib Require Import Floats String Ascii List ZArith Bool Arith Lia.
Import ListNotations.

Set Warnings "-inexact-float,-register-all".

Local Open Scope string_scope.
Local Open Scope list_scope.

(** ** Python floats *)

Module PyFloat.

(** [a > b] and [a <= b] as Python evaluates them on floats. *)
Definition gt (a b : float) : bool := (b <? a)%float.
Definition le (a b : float) : bool := (a <=? b)%float.

Definition is_nan (a : float) : bool := negb (a =? a)%float.

(** The closed unit interval of the probabilities. *)
Definition in_unit (a : float) : bool := le 0 a && le a 1.

End PyFloat.

Infix ">?" := PyFloat.gt (at level 70, no associativity) : float_scope.

(** ** Python runtime: exceptions, strings, lists *)

Module Py.

(** What a library call or a [raise] of the scripts can raise, by what the
    code observes of it: an instance of [Exception] with its [str(e)], or a
    [BaseException] that [except Exception] lets through. *)
Inductive exn : Type :=
| Exception (str : string)
| SystemExit (code : Z)
| KeyboardInterrupt.

Definition isinstance_Exception (e : exn) : bool :=
  match e with
  | Exception _ => true
  | SystemExit _ | KeyboardInterrupt => false
  end.

(** A computation that returns or raises. *)
Inductive result (E A : Type) : Type :=
| Ret (a : A)
| Raise (e : E).

Arguments Ret {E A} a.
Arguments Raise {E A} e.

Definition bind {E A B} (r : result E A) (k : A -> result E B) : result E B :=
  match r with
  | Ret a => k a
  | Raise e => Raise e
  end.

Declare Scope py_scope.
Delimit Scope py_scope with py.
Notation "x <- e ; k" := (bind e (fun x => k))
  (at level 61, e at next level, right associativity) : py_scope.

(** [sep in s] for a non-empty [sep]. *)
Fixpoint contains (sep s : string) : bool :=
  match s with
  | EmptyString => String.prefix sep s
  | String _ s' => String.prefix sep s || contains sep s'
  end.

(** [s.split(sep)] for a non-empty [sep]: [cur] is the segment being read,
    [skip] the characters of a matched separator still to pass. *)
Fixpoint split_from (sep s : string) (skip : nat) (cur : string) : list string :=
  match s with
  | EmptyString => [cur]
  | String ch s' =>
      match skip with
      | S k => split_from sep s' k cur
      | O =>
          if String.prefix sep s
          then cur :: split_from sep s' (String.length sep - 1) EmptyString
          else split_from sep s' 0 (cur ++ String ch EmptyString)%string
      end
  end.

Definition split (s sep : string) : list string := split_from sep s 0 EmptyString.

(** [c not in s] for a character [c]. *)
Fixpoint lacks (c : ascii) (s : string) : bool :=
  match s with
  | EmptyString => true
  | String ch s' => negb (Ascii.eqb ch c) && lacks c s'
  end.

(** [l[i]]: IndexError out of range (with the message of a list; numpy
    words its own differently). *)
Definition getitem {A} (l : list A) (i : nat) : result exn A :=
  match nth_error l i with
  | Some a => Ret a
  | None => Raise (Exception "list index out of range")
  end.

(** [bool(int(b))]. *)
Definition int_of_bool (b : bool) : Z := if b then 1%Z else 0%Z.
Definition bool_of_int (z : Z) : bool := negb (z =? 0)%Z.

End Py.

Export Py (exn (..), result (..)).

(** ** pneumonia-api/main.py: severity and recommendations *)

Module Main.

Definition get_severity (confidence : float) : option string :=
  if (confidence >? 0.9)%float then Some "Severe"
  else if (confidence >? 0.8)%float then Some "Moderate"
  else if (confidence >? 0.5)%float then Some "Mild"
  else None.

(** [severity == "Severe"] where [severity] is [None] or a [str]. *)
Definition eq_str (severity : option string) (lit : string) : bool :=
  match severity with
  | Some s => String.eqb s lit
  | None => false
  end.

Definition get_recommendations (confidence : float) (severity : option string)
  : list string :=
  if (confidence >? 0.5)%float then
    let base_recommendations :=
      [ "Consult with a healthcare provider";
        "Monitor breathing and oxygen levels";
        "Rest and maintain good hydration" ] in
    if eq_str severity "Severe" then
      [ "⚠️ SEEK IMMEDIATE EMERGENCY CARE";
        "High risk - immediate medical attention required";
        "Prepare for possible hospitalization";
        "Monitor oxygen saturation closely" ]
      ++ base_recommendations
    else if eq_str severity "Moderate" then
      [ "Seek urgent medical attention";
        "Begin prescribed treatments promptly";
        "Schedule follow-up chest X-rays" ]
      ++ base_recommendations
    else
      [ "Schedule medical evaluation" ]
      ++ base_recommendations
      ++ [ "Follow up with chest X-rays as advised";
           "Complete prescribed medications if given" ]
  else
    [ "Continue normal health monitoring";
      "Maintain good respiratory hygiene";
      "Stay current with vaccinations";
      "Follow up if new symptoms develop" ].

End Main.

(** ** pneumonia-api/main.py: libraries, globals and handlers *)

Module Api.

Import Py.

Definition bytes : Type := string.

(** numpy arrays as nested lists: the uint8 array of an image (rows, columns,
    bands), and float64 arrays of three and four axes. *)
Definition ndarray_u8 : Type := list (list (list Z)).
Definition ndarray3 : Type := list (list (list float)).
Definition ndarray4 : Type := list ndarray3.

(** The library calls of [main.py]: [base64.b64decode], PIL's [Image.open],
    [mode], [size] (width, height), [convert] and [resize], [np.array] of an
    image, the loaded model's
    [predict], and the ['.1f'] format of a float. *)
Class Runtime : Type := {
  Model : Type;
  Image : Type;
  b64decode : string -> result exn bytes;
  Image_open : bytes -> result exn Image;
  Image_mode : Image -> string;
  Image_size : Image -> nat * nat;
  Image_convert : Image -> string -> result exn Image;
  Image_resize : Image -> nat * nat -> result exn Image;
  np_array : Image -> result exn ndarray_u8;
  Model_predict : Model -> ndarray4 -> result exn (list (list float));
  format_1f : float -> string
}.

(** [v / 255.0] for an entry [v] of a uint8 array. *)
Definition div255 (v : Z) : float :=
  (PrimFloat.of_uint63 (Uint63.of_Z v) / 255.0)%float.

(** [np.expand_dims(a, axis=0)]. *)
Definition expand_dims0 (a : ndarray3) : ndarray4 := [a].

Record ImageRequest : Type := { image : string }.

Record Details : Type := {
  lungOpacity : string;
  infiltrates : string;
  consolidation : string;
  severity : option string
}.

Record PredictionResult : Type := {
  prediction : string;
  confidence : float;
  pneumoniaProbability : float;
  details : Details;
  recommendations : list string
}.

Record Health : Type := { status : string; model_loaded : bool }.

(** What a handler raises: the [HTTPException] it builds, or an exception
    that no [except] clause of it caught. *)
Inductive http_exn : Type :=
| HTTPException (status_code : Z) (detail : string)
| Uncaught (e : exn).

(** Calls that leave the process, as the handlers make them. *)
Inductive call : Type :=
| OsPathExists (path : string)
| KerasLoadModel (path : string)
| PreprocessImage (image_data : string)
| ModelPredict.

Section WithRuntime.

Context {R : Runtime}.

Definition preprocess_image (image_data : string) : result exn ndarray4 :=
  (image_data <- (if Py.contains "base64," image_data
                  then Py.getitem (Py.split image_data "base64,") 1
                  else Ret image_data);
   raw <- b64decode image_data;
   image <- Image_open raw;
   image <- (if negb (String.eqb (Image_mode image) "RGB")
             then Image_convert image "RGB"
             else Ret image);
   image <- Image_resize image (224, 224);
   arr <- np_array image;
   let img_array := map (map (map div255)) arr in
   let img_array := expand_dims0 img_array in
   Ret img_array)%py.

(** The module's global [model], the lines printed so far, and the calls
    made so far. *)
Record state : Type := {
  model : option Model;
  stdout : list string;
  calls : list call
}.

(** What the file system and keras answer while one request is served. *)
Record World : Type := {
  path_exists : string -> bool;
  keras_load_model : string -> result exn Model
}.

Definition M (E A : Type) : Type := state -> result E A * state.

Definition ret {E A} (a : A) : M E A := fun st => (Ret a, st).

Definition raise {E A} (e : E) : M E A := fun st => (Raise e, st).

Definition bindM {E A B} (m : M E A) (k : A -> M E B) : M E B :=
  fun st =>
    match m st with
    | (Ret a, st') => k a st'
    | (Raise e, st') => (Raise e, st')
    end.

Definition lift {E A} (r : result E A) : M E A := fun st => (r, st).

Definition log {E} (c : call) : M E unit :=
  fun st =>
    (Ret tt, {| model := model st; stdout := stdout st; calls := calls st ++ [c] |}).

Definition print {E} (line : string) : M E unit :=
  fun st =>
    (Ret tt, {| model := model st; stdout := stdout st ++ [line]; calls := calls st |}).

Definition get_model {E} : M E (option Model) := fun st => (Ret (model st), st).

Definition set_model {E} (m : Model) : M E unit :=
  fun st => (Ret tt, {| model := Some m; stdout := stdout st; calls := calls st |}).

(** [try: body / except Exception as e: handler], the handler using [e]
    through [str(e)] only; [inj] carries what is not an [Exception] on. *)
Definition try_except {E A} (inj : exn -> E) (body : M exn A)
  (handler : string -> M E A) : M E A :=
  fun st =>
    match body st with
    | (Ret a, st') => (Ret a, st')
    | (Raise (Exception s), st') => handler s st'
    | (Raise e, st') => (Raise (inj e), st')
    end.

(** [not model]: a loaded model object is truthy. *)
Definition not_ (m : option Model) : bool :=
  match m with
  | None => true
  | Some _ => false
  end.

End WithRuntime.

Notation "x <-- e ; k" := (bindM e (fun x => k))
  (at level 61, e at next level, right associativity) : py_scope.
Notation "e ;; k" := (bindM e (fun _ => k))
  (at level 61, right associativity) : py_scope.

Section Handlers.

Context {R : Runtime}.
Variable w : World.

Definition load_model : M exn unit :=
  (let model_path := "pneumonia_detection_model.h5" in
   found <-- (log (OsPathExists model_path) ;; ret (path_exists w model_path));
   if found then
     m <-- (log (KerasLoadModel model_path) ;; lift (keras_load_model w model_path));
     set_model m ;;
     print ("Model loaded successfully from " ++ model_path)%string
   else
     raise (Exception ("Model file not found at " ++ model_path)%string))%py.

Definition startup_event : M exn unit :=
  try_except (fun e => e) load_model
    (fun e => print ("Error loading model: " ++ e)%string).

Definition predict (request : ImageRequest) : M http_exn PredictionResult :=
  (m <-- get_model;
   (if not_ m then
      try_except Uncaught load_model
        (fun e => raise (HTTPException 500 ("Model not loaded: " ++ e)%string))
    else ret tt) ;;
   try_except Uncaught
     (processed_image <--
        (log (PreprocessImage (image request)) ;;
         lift (preprocess_image (image request)));
      m <-- get_model;
      prediction <--
        match m with
        | Some m => log ModelPredict ;; lift (Model_predict m processed_image)
        | None =>
            raise (Exception "'NoneType' object has no attribute 'predict'")
        end;
      row <-- lift (Py.getitem prediction 0);
      pneumonia_probability <-- lift (Py.getitem row 0);
      let is_pneumonia := (pneumonia_probability >? 0.5)%float in
      let severity := Main.get_severity pneumonia_probability in
      let result :=
        {| prediction := if is_pneumonia then "Pneumonia" else "Normal";
           confidence := pneumonia_probability;
           pneumoniaProbability := pneumonia_probability;
           details :=
             {| lungOpacity :=
                  ((if is_pneumonia then "Increased" else "Normal")
                   ++ " opacity detected in lung fields ("
                   ++ format_1f (pneumonia_probability * 100)%float
                   ++ "% confidence)")%string;
                infiltrates :=
                  if is_pneumonia then "Likely presence of infiltrates"
                  else "No significant infiltrates detected";
                consolidation :=
                  if is_pneumonia then "Potential areas of consolidation observed"
                  else "No consolidation observed";
                severity := severity |};
           recommendations :=
             Main.get_recommendations pneumonia_probability severity |} in
      ret result)
     (fun e => raise (HTTPException 500 e)))%py.

Definition health_check {E} : M E Health :=
  (m <-- get_model;
   ret {| status := "healthy";
          model_loaded := match m with Some _ => true | None => false end |})%py.

End Handlers.

(** *** The application: startup, then one request at a time *)

Inductive event : Type :=
| PostPredict (request : ImageRequest)
| GetHealth.

Inductive reply : Type :=
| PredictReply (r : result http_exn PredictionResult)
| HealthReply (r : result exn Health).

Section App.

Context {R : Runtime}.

Definition initial : state := {| model := None; stdout := []; calls := [] |}.

(** The state the startup hook leaves, in the world [w] it runs in. *)
Definition boot (w : World) : state := snd (startup_event w initial).

Definition step (w : World) (ev : event) (st : state) : reply * state :=
  match ev with
  | PostPredict request => let (r, st') := predict w request st in (PredictReply r, st')
  | GetHealth => let (r, st') := health_check st in (HealthReply r, st')
  end.

(** Requests in arrival order, each with the world it meets. *)
Fixpoint run (evs : list (World * event)) (st : state) : list reply * state :=
  match evs with
  | [] => ([], st)
  | (w, ev) :: rest =>
      let (r, st') := step w ev st in
      let (rs, st'') := run rest st' in
      (r :: rs, st'')
  end.

End App.

(** *** What the libraries promise

    PIL: [convert] gives the mode asked for and keeps the size, [resize]
    gives the size asked for and keeps the mode; numpy: the array of an RGB
    image has its height many rows, its width many columns, and three uint8
    values per pixel. *)

Definition is_uint8 (v : Z) : bool := ((0 <=? v) && (v <? 256))%Z.

Definition shape3 {A} (h w c : nat) (a : list (list (list A))) : bool :=
  Nat.eqb (length a) h
  && forallb (fun row => Nat.eqb (length row) w
                         && forallb (fun px => Nat.eqb (length px) c) row) a.

Definition shape4 {A} (n h w c : nat) (t : list (list (list (list A)))) : bool :=
  Nat.eqb (length t) n && forallb (shape3 h w c) t.

Definition all3 {A} (P : A -> bool) (a : list (list (list A))) : bool :=
  forallb (forallb (forallb P)) a.

Definition all4 {A} (P : A -> bool) (t : list (list (list (list A)))) : bool :=
  forallb (all3 P) t.

Class RuntimeOk (R : Runtime) : Prop := {
  convert_ok : forall img m img',
    Image_convert img m = Ret img' ->
    Image_mode img' = m /\ Image_size img' = Image_size img;
  resize_ok : forall img sz img',
    Image_resize img sz = Ret img' ->
    Image_size img' = sz /\ Image_mode img' = Image_mode img;
  array_ok : forall img a,
    Image_mode img = "RGB" -> np_array img = Ret a ->
    shape3 (snd (Image_size img)) (fst (Image_size img)) 3 a = true
    /\ all3 is_uint8 a = true
}.

(** *** A small runtime to run the handlers on

    Images of one colour, a base64 decoder that refuses the empty string and
    "!", and models that answer one fixed probability. *)

Module Toy.

Record image : Type := { mode : string; size : nat * nat; colour : Z }.

Definition bands (m : string) : nat :=
  if String.eqb m "RGB" then 3 else if String.eqb m "RGBA" then 4 else 1.

Definition decode (s : string) : result exn bytes :=
  if String.eqb s "" || Py.contains "!" s
  then Raise (Exception "Incorrect padding")
  else Ret s.

Definition open (b : bytes) : result exn image :=
  match b with
  | EmptyString => Raise (Exception "cannot identify image file")
  | String c _ => Ret {| mode := "L"; size := (2, 3); colour := Z.of_N (N_of_ascii c) |}
  end.

Definition array (img : image) : result exn ndarray_u8 :=
  Ret (repeat (repeat (repeat (colour img mod 256)%Z (bands (mode img)))
                 (fst (size img))) (snd (size img))).

Definition runtime : Runtime := {|
  Model := float;
  Image := image;
  b64decode := decode;
  Image_open := open;
  Image_mode := mode;
  Image_size := size;
  Image_convert := fun img m => Ret {| mode := m; size := size img; colour := colour img |};
  Image_resize := fun img sz => Ret {| mode := mode img; size := sz; colour := colour img |};
  np_array := array;
  Model_predict := fun m _ => Ret [[m]];
  format_1f := fun _ => "?"
|}.

(** The model file is there and loads to the model answering [p]. *)
Definition world_with (p : float) : World (R := runtime) :=
  @Build_World runtime (fun _ => true) (fun _ => Ret (E := exn) (A := float) p).

(** The model file is missing. *)
Definition world_without : World (R := runtime) :=
  @Build_World runtime (fun _ => false)
    (fun _ => Raise (A := float) (Exception "No file or directory found")).

Definition data_url : string := "data:image/png;base64,iVBORw0KGgo=".

End Toy.

End Api.

(** ** predict.py: the command-line predictor *)

Module Cli.

Import Py.

(** What [json.dumps] is given, and what [json.load] gives. *)
Inductive json : Type :=
| JNull
| JBool (b : bool)
| JInt (z : Z)
| JFloat (f : float)
| JString (s : string)
| JArray (items : list json)
| JObject (fields : list (string * json)).

(** The library calls of [predict.py]: [open] for reading bytes and text,
    [pickle.load], [json.load], [np.array(..).reshape(1, -1)], the model's
    [predict_proba], and [json.dumps]. *)
Class Runtime : Type := {
  Model : Type;
  Array : Type;
  File : Type;
  open_ : string -> string -> result exn File;
  pickle_load : File -> result exn Model;
  json_load : File -> result exn json;
  np_array_reshape_row : json -> result exn Array;
  predict_proba : Model -> Array -> result exn (list (list float));
  dumps : json -> string
}.

(** Calls that leave the process. *)
Inductive call : Type :=
| Open (path mode : string)
| PickleLoad
| JsonLoad
| PredictProba.

Record state : Type := { stdout : list string; calls : list call }.

Definition M (A : Type) : Type := state -> result exn A * state.

Definition ret {A} (a : A) : M A := fun st => (Ret a, st).

Definition raise {A} (e : exn) : M A := fun st => (Raise e, st).

Definition bindM {A B} (m : M A) (k : A -> M B) : M B :=
  fun st =>
    match m st with
    | (Ret a, st') => k a st'
    | (Raise e, st') => (Raise e, st')
    end.

Definition lift {A} (r : result exn A) : M A := fun st => (r, st).

Definition log (c : call) : M unit :=
  fun st => (Ret tt, {| stdout := stdout st; calls := calls st ++ [c] |}).

Definition print (line : string) : M unit :=
  fun st => (Ret tt, {| stdout := stdout st ++ [line]; calls := calls st |}).

(** [sys.exit(code)] raises [SystemExit]. *)
Definition sys_exit {A} (code : Z) : M A := raise (SystemExit code).

(** [try: body / except Exception as e: handler], the handler using [e]
    through [str(e)] only. *)
Definition try_except {A} (body : M A) (handler : string -> M A) : M A :=
  fun st =>
    match body st with
    | (Raise (Exception s), st') => handler s st'
    | other => other
    end.

Notation "x <-- e ; k" := (bindM e (fun x => k))
  (at level 61, e at next level, right associativity) : py_scope.
Notation "e ;; k" := (bindM e (fun _ => k))
  (at level 61, right associativity) : py_scope.

(** The object printed on success, and the one printed on failure. *)
Definition result_object (probability : float) : json :=
  JObject [ ("probability", JFloat probability);
            ("prediction", JBool (probability >? 0.5)%float) ].

Definition error_object (message : string) : json :=
  JObject [ ("error", JString message) ].

Section Script.

Context {R : Runtime}.

(** The module body. *)
Definition main : M unit :=
  (try_except
     (f <-- (log (Open "ensemble_model.pkl" "rb") ;; lift (open_ "ensemble_model.pkl" "rb"));
      model <-- (log PickleLoad ;; lift (pickle_load f));
      f <-- (log (Open "temp_input.json" "r") ;; lift (open_ "temp_input.json" "r"));
      input_data <-- (log JsonLoad ;; lift (json_load f));
      input_array <-- lift (np_array_reshape_row input_data);
      proba <-- (log PredictProba ;; lift (predict_proba model input_array));
      row <-- lift (Py.getitem proba 0);
      probability <-- lift (Py.getitem row 1);
      let prediction := Py.int_of_bool (probability >? 0.5)%float in
      let result :=
        JObject [ ("probability", JFloat probability);
                  ("prediction", JBool (Py.bool_of_int prediction)) ] in
      print (dumps result) ;;
      sys_exit 0)
     (fun e =>
        print (dumps (JObject [ ("error", JString e) ])) ;;
        sys_exit 1))%py.

(** The return code of the interpreter, as the parent process reads it: 0
    when the module body ends; the code of an uncaught [SystemExit], modulo
    256; 1 after an uncaught [Exception]; and -2 after an uncaught
    [KeyboardInterrupt], which ends the process by the signal SIGINT (2)
    instead of an exit. *)
Definition exit_status (r : result exn unit) : Z :=
  match r with
  | Ret _ => 0
  | Raise (SystemExit code) => code mod 256
  | Raise (Exception _) => 1
  | Raise KeyboardInterrupt => -2
  end.

(** One run of the script: what it wrote, its exit status, the calls made. *)
Definition run : list string * Z * list call :=
  let (r, st) := main {| stdout := []; calls := [] |} in
  (stdout st, exit_status r, calls st).

(** The probability of class 1, when every step returns. *)
Definition class1_probability : result exn float :=
  (f <- open_ "ensemble_model.pkl" "rb";
   model <- pickle_load f;
   f <- open_ "temp_input.json" "r";
   input_data <- json_load f;
   input_array <- np_array_reshape_row input_data;
   proba <- predict_proba model input_array;
   row <- Py.getitem proba 0;
   Py.getitem row 1)%py.

End Script.

(** *** A small runtime to run the script on: files are their paths, the
    model file holds the probabilities it answers. *)

Module Toy.

Definition serialise (v : json) : string :=
  match v with
  | JObject [ ("error", JString e) ] => ("{error: " ++ e ++ "}")%string
  | JObject [ ("probability", JFloat _); ("prediction", JBool b) ] =>
      if b then "{probability: p, prediction: true}"
      else "{probability: p, prediction: false}"
  | _ => "?"
  end.

(** [present] tells which files exist; the model answers [proba]. *)
Definition runtime (present : string -> bool) (proba : list (list float)) : Runtime := {|
  Model := unit;
  Array := json;
  File := string;
  open_ := fun path _ =>
    if present path then Ret path
    else Raise (Exception ("[Errno 2] No such file or directory: '" ++ path ++ "'")%string);
  pickle_load := fun _ => Ret tt;
  json_load := fun _ => Ret (JArray [JFloat 1; JFloat 2]);
  np_array_reshape_row := fun v => Ret v;
  predict_proba := fun _ _ => Ret proba;
  dumps := serialise
|}.

End Toy.

End Cli.

(** ** The specification's tables, for comparison with the code *)

Module Spec.

(** Section 4.3: rows of (exclusive lower bound, label), in table order. *)
Definition severity_table : list (float * string) :=
  [ (0.9%float, "Severe"); (0.8%float, "Moderate"); (0.5%float, "Mild") ].

(** First row whose condition holds wins; no row: [None]. *)
Fixpoint first_match (rows : list (float * string)) (p : float) : option string :=
  match rows with
  | [] => None
  | (bound, label) :: rest =>
      if (p >? bound)%float then Some label else first_match rest p
  end.

(** The tier order None < Mild < Moderate < Severe. *)
Definition tier (s : option string) : nat :=
  match s with
  | None => 0
  | Some l =>
      if String.eqb l "Mild" then 1
      else if String.eqb l "Moderate" then 2
      else if String.eqb l "Severe" then 3
      else 0
  end.

Definition normal_list : list string :=
  [ "Continue normal health monitoring";
    "Maintain good respiratory hygiene";
    "Stay current with vaccinations";
    "Follow up if new symptoms develop" ].

Definition base_list : list string :=
  [ "Consult with a healthcare provider";
    "Monitor breathing and oxygen levels";
    "Rest and maintain good hydration" ].

Definition severe_urgent : list string :=
  [ "⚠️ SEEK IMMEDIATE EMERGENCY CARE";
    "High risk - immediate medical attention required";
    "Prepare for possible hospitalization";
    "Monitor oxygen saturation closely" ].

Definition moderate_urgent : list string :=
  [ "Seek urgent medical attention";
    "Begin prescribed treatments promptly";
    "Schedule follow-up chest X-rays" ].

Definition mild_list : list string :=
  [ "Schedule medical evaluation" ] ++ base_list
  ++ [ "Follow up with chest X-rays as advised";
       "Complete prescribed medications if given" ].

(** Section 4.5: the result assembled from a probability [p], the one-decimal
    format of a float given. *)
Definition assemble (fmt : float -> string) (p : float) : Api.PredictionResult :=
  let positive := (p >? 0.5)%float in
  {| Api.prediction := if positive then "Pneumonia" else "Normal";
     Api.confidence := p;
     Api.pneumoniaProbability := p;
     Api.details :=
       {| Api.lungOpacity :=
            ((if positive then "Increased" else "Normal")
             ++ " opacity detected in lung fields ("
             ++ fmt (p * 100)%float ++ "% confidence)")%string;
          Api.infiltrates :=
            if positive then "Likely presence of infiltrates"
            else "No significant infiltrates detected";
          Api.consolidation :=
            if positive then "Potential areas of consolidation observed"
            else "No consolidation observed";
          Api.severity := first_match severity_table p |};
     Api.recommendations :=
       if positive then
         match first_match severity_table p with
         | Some "Severe" => severe_urgent ++ base_list
         | Some "Moderate" => moderate_urgent ++ base_list
         | _ => mild_list
         end
       else normal_list |}.

End Spec.


(** ** The handlers in big steps

    What [load_model] and [predict] come to, case by case; proved equal to
    the code below. *)

Module BigStep.

Import Py Api.

Section WithRuntime.

Context {R : Runtime}.

Definition model_path : string := "pneumonia_detection_model.h5".

(** The state after [cs] more calls and [out] more printed lines. *)
Definition after (st : state) (m : option Model) (out : list string) (cs : list call)
  : state :=
  {| model := m; stdout := stdout st ++ out; calls := calls st ++ cs |}.

(** An exception leaving a [try] whose handler raises [HTTPException(500, str(e))]. *)
Definition wrap500 {A} (prefix : string) (e : exn) : result http_exn A :=
  match e with
  | Exception s => Raise (HTTPException 500 (prefix ++ s)%string)
  | e => Raise (Uncaught e)
  end.

(** The second [try] of [predict] from a state whose model is [m]. *)
Definition serve (m : Model) (request : ImageRequest) (st : state)
  : result http_exn PredictionResult * state :=
  match preprocess_image (image request) with
  | Raise e => (wrap500 "" e, after st (model st) [] [PreprocessImage (image request)])
  | Ret t =>
      (match (prediction <- Model_predict m t;
              row <- Py.getitem prediction 0;
              p <- Py.getitem row 0;
              Ret (Spec.assemble format_1f p))%py with
       | Ret r => Ret r
       | Raise e => wrap500 "" e
       end,
       after st (model st) [] [PreprocessImage (image request); ModelPredict])
  end.

(** Whatever leaves the handler is a result, an [HTTPException] with status
    500, or an exception that is not an [Exception]. *)
Definition surfaced (r : result http_exn PredictionResult) : Prop :=
  match r with
  | Ret _ => True
  | Raise (HTTPException code _) => code = 500%Z
  | Raise (Uncaught e) => isinstance_Exception e = false
  end.

(** [model is not None]. *)
Definition loaded (st : state) : bool :=
  match model st with
  | Some _ => true
  | None => false
  end.

(** The model a load would give in the world [w], if any. *)
Definition load_gives (w : World) : option Model :=
  if path_exists w model_path then
    match keras_load_model w model_path with
    | Ret m => Some m
    | Raise _ => None
    end
  else None.

(** The model the second [try] of [predict] runs with: the global one, else
    the one the lazy load gives. *)
Definition available (w : World) (st : state) : option Model :=
  match model st with
  | Some m => Some m
  | None => load_gives w
  end.

(** The text [preprocess_image] hands to the base64 decoder. *)
Definition payload (image_data : string) : result exn string :=
  if Py.contains "base64," image_data
  then Py.getitem (Py.split image_data "base64,") 1
  else Ret image_data.

End WithRuntime.

End BigStep.

(** ** The conversion scripts: convert_pneumonia_model.py,
    convert_skin_cancer_model.py, export_model.py *)

Module Convert.

Import Py.

(** The layers [export_model.py] rebuilds the architecture from. *)
Inductive layer : Type :=
| Conv2D (filters : Z) (kernel_size : Z * Z) (activation : string)
    (input_shape : option (Z * Z * Z))
| MaxPooling2D (pool_size : Z * Z)
| Flatten
| Dense (units : Z) (activation : string)
| Dropout (rate : float).

(** The library calls of the three scripts: the imports of tensorflow and
    tensorflowjs, [os.path.join], [os.makedirs(path, exist_ok=..)],
    [tf.keras.models.load_model], [model.summary()] (the lines it prints),
    [tfjs.converters.save_keras_model], [tf.keras.Sequential],
    [model.compile(optimizer, loss, metrics)], [model.load_weights] and
    [tf.keras.models.save_model(model, path, overwrite, include_optimizer)]. *)
Class Runtime : Type := {
  Model : Type;
  import_module : string -> result exn unit;
  path_join : list string -> string;
  makedirs : string -> bool -> result exn unit;
  load_model : string -> result exn Model;
  summary : Model -> result exn (list string);
  save_keras_model : Model -> string -> result exn unit;
  Sequential : list layer -> result exn Model;
  compile : Model -> string -> string -> list string -> result exn unit;
  load_weights : Model -> string -> result exn unit;
  save_model : Model -> string -> bool -> bool -> result exn unit
}.

Section Scripts.

Context {R : Runtime}.

(** Calls that leave the process, with the model they are made on. *)
Inductive call : Type :=
| Import (name : string)
| Makedirs (path : string) (exist_ok : bool)
| LoadModel (path : string)
| Summary (model : Model)
| SaveKerasModel (model : Model) (path : string)
| BuildSequential (layers : list layer)
| Compile (model : Model)
| LoadWeights (model : Model) (path : string)
| SaveModel (model : Model) (path : string).

(** [stdout]: the lines the script's own [print] statements write and the
    lines of [model.summary()], in order; [calls]: the calls the script
    makes, in order.  What a library call writes by itself (progress and
    notice lines) and what it does on disk is the library's and is not
    recorded here. *)
Record state : Type := { stdout : list string; calls : list call }.

Definition M (A : Type) : Type := state -> result exn A * state.

Definition ret {A} (a : A) : M A := fun st => (Ret a, st).

Definition bindM {A B} (m : M A) (k : A -> M B) : M B :=
  fun st =>
    match m st with
    | (Ret a, st') => k a st'
    | (Raise e, st') => (Raise e, st')
    end.

(** A library call the script makes: logged, then made; it returns or
    raises. *)
Definition invoke {A} (c : call) (r : result exn A) : M A :=
  fun st => (r, {| stdout := stdout st; calls := calls st ++ [c] |}).

Definition print (line : string) : M unit :=
  fun st => (Ret tt, {| stdout := stdout st ++ [line]; calls := calls st |}).

Definition print_lines (lines : list string) : M unit :=
  fun st => (Ret tt, {| stdout := stdout st ++ lines; calls := calls st |}).

(** [try: body / except: handler]: a bare [except] catches whatever is
    raised, [SystemExit] and [KeyboardInterrupt] included. *)
Definition try_except_all {A} (body : M A) (handler : M A) : M A :=
  fun st =>
    match body st with
    | (Ret a, st') => (Ret a, st')
    | (Raise _, st') => handler st'
    end.

End Scripts.

Notation "x <-- e ; k" := (bindM e (fun x => k))
  (at level 61, e at next level, right associativity) : py_scope.
Notation "e ;; k" := (bindM e (fun _ => k))
  (at level 61, right associativity) : py_scope.

Section Bodies.

Context {R : Runtime}.

(** convert_pneumonia_model.py *)
Definition convert_pneumonia_model : M unit :=
  (invoke (Import "tensorflowjs") (import_module "tensorflowjs") ;;
   invoke (Import "tensorflow") (import_module "tensorflow") ;;
   model <-- invoke (LoadModel "pneumonia_detection_model(1).h5")
               (load_model "pneumonia_detection_model(1).h5");
   invoke (SaveKerasModel model "public/models/pneumonia")
     (save_keras_model model "public/models/pneumonia"))%py.

(** convert_skin_cancer_model.py *)
Definition convert_skin_cancer_model : M unit :=
  (invoke (Import "tensorflow") (import_module "tensorflow") ;;
   invoke (Import "tensorflowjs") (import_module "tensorflowjs") ;;
   let model_path := "skin_cancer_model.h5" in
   let output_dir := path_join ["public"; "models"; "skin-cancer"] in
   invoke (Makedirs output_dir true) (makedirs output_dir true) ;;
   model <-- invoke (LoadModel model_path) (load_model model_path);
   lines <-- invoke (Summary model) (summary model);
   print_lines lines ;;
   invoke (SaveKerasModel model output_dir) (save_keras_model model output_dir) ;;
   print ("Model converted and saved to " ++ output_dir)%string)%py.

(** The architecture of export_model.py. *)
Definition architecture : list layer :=
  [ Conv2D 100 (3, 3)%Z "relu" (Some (224, 224, 3)%Z);
    MaxPooling2D (2, 2)%Z;
    Conv2D 64 (3, 3)%Z "relu" None;
    MaxPooling2D (2, 2)%Z;
    Conv2D 64 (3, 3)%Z "relu" None;
    MaxPooling2D (2, 2)%Z;
    Flatten;
    Dense 256 "relu";
    Dropout 0.5;
    Dense 128 "relu";
    Dropout 0.5;
    Dense 1 "sigmoid" ].

(** export_model.py *)
Definition export_model : M unit :=
  (invoke (Import "tensorflow") (import_module "tensorflow") ;;
   let output_dir := path_join ["public"; "models"; "brain-stroke"] in
   invoke (Makedirs output_dir true) (makedirs output_dir true) ;;
   model <--
     try_except_all
       (model <-- invoke (LoadModel "brain_stroke_model") (load_model "brain_stroke_model");
        print "Model loaded successfully from saved model directory" ;;
        ret model)
       (print "Could not load saved model, creating model from architecture..." ;;
        model <-- invoke (BuildSequential architecture) (Sequential architecture);
        invoke (Compile model)
          (compile model "adam" "binary_crossentropy" ["accuracy"]) ;;
        try_except_all
          (invoke (LoadWeights model "brain_stroke_weights.h5")
             (load_weights model "brain_stroke_weights.h5") ;;
           print "Weights loaded successfully")
          (print "WARNING: Could not load weights. The model will not be accurate without training.") ;;
        ret model);
   invoke (SaveModel model output_dir) (save_model model output_dir true false) ;;
   invoke (Import "tensorflowjs") (import_module "tensorflowjs") ;;
   invoke (SaveKerasModel model output_dir) (save_keras_model model output_dir) ;;
   print ("Model saved to " ++ output_dir ++ " in TensorFlow.js format")%string ;;
   print "You can now use this model in your web application.")%py.

(** The return code of the interpreter after a module body, as the parent
    process reads it: 0 at a normal end; the code of an uncaught
    [SystemExit], modulo 256; 1 after an uncaught [Exception]; -2 after an
    uncaught [KeyboardInterrupt], which ends the process by SIGINT. *)
Definition exit_status (r : result exn unit) : Z :=
  match r with
  | Ret _ => 0
  | Raise (SystemExit code) => code mod 256
  | Raise (Exception _) => 1
  | Raise KeyboardInterrupt => -2
  end.

Definition start : state := {| stdout := []; calls := [] |}.

(** One run of a script: what it printed, its exit status, its calls. *)
Definition run (script : M unit) : list string * Z * list call :=
  let (r, st) := script start in
  (stdout st, exit_status r, calls st).

End Bodies.

(** *** A small runtime: models are names; [missing] tells which files and
    modules are not there. *)

Module Toy.

Definition fails (missing : list string) (name : string) : bool :=
  existsb (String.eqb name) missing.

Definition runtime (missing : list string) : Runtime := {|
  Model := string;
  import_module := fun name =>
    if fails missing name
    then Raise (Exception ("No module named '" ++ name ++ "'")%string)
    else Ret tt;
  path_join := fun parts => String.concat "/" parts;
  makedirs := fun _ _ => Ret tt;
  load_model := fun path =>
    if fails missing path
    then Raise (Exception ("No file or directory found at " ++ path)%string)
    else Ret path;
  summary := fun m => Ret [("Model: " ++ m)%string];
  save_keras_model := fun _ _ => Ret tt;
  Sequential := fun _ => Ret "sequential";
  compile := fun _ _ _ _ => Ret tt;
  load_weights := fun _ path =>
    if fails missing path then Raise KeyboardInterrupt else Ret tt;
  save_model := fun _ _ _ _ => Ret tt
|}.

End Toy.

End Convert.

(** ** export_model.py in big steps *)

Module ExportSteps.

Import Py Convert.

Section WithRuntime.

Context {R : Runtime}.

Definition output_dir : string := path_join ["public"; "models"; "brain-stroke"].

Definition could_not_load : string :=
  "Could not load saved model, creating model from architecture...".

Definition warning : string :=
  "WARNING: Could not load weights. The model will not be accurate without training.".

Definition last_lines : list string :=
  [ ("Model saved to " ++ output_dir ++ " in TensorFlow.js format")%string;
    "You can now use this model in your web application." ].

(** The end of the script, from the model [m] on: the Keras save, the import
    of tensorflowjs, the conversion, the two last lines. *)
Definition finish (m : Model) (out : list string) (cs : list call)
  : result exn unit * state :=
  match save_model m output_dir true false with
  | Raise e => (Raise e, {| stdout := out; calls := cs ++ [SaveModel m output_dir] |})
  | Ret _ =>
      match import_module "tensorflowjs" with
      | Raise e =>
          (Raise e,
           {| stdout := out;
              calls := cs ++ [SaveModel m output_dir; Import "tensorflowjs"] |})
      | Ret _ =>
          match save_keras_model m output_dir with
          | Raise e =>
              (Raise e,
               {| stdout := out;
                  calls := cs ++ [SaveModel m output_dir; Import "tensorflowjs";
                                  SaveKerasModel m output_dir] |})
          | Ret _ =>
              (Ret tt,
               {| stdout := out ++ last_lines;
                  calls := cs ++ [SaveModel m output_dir; Import "tensorflowjs";
                                  SaveKerasModel m output_dir] |})
          end
      end
  end.

(** The calls up to the attempt to load the saved model. *)
Definition opening : list call :=
  [ Import "tensorflow"; Makedirs output_dir true; LoadModel "brain_stroke_model" ].

(** The whole script. *)
Definition export_model_steps : result exn unit * state :=
  match import_module "tensorflow" with
  | Raise e => (Raise e, {| stdout := []; calls := [Import "tensorflow"] |})
  | Ret _ =>
      match makedirs output_dir true with
      | Raise e =>
          (Raise e,
           {| stdout := []; calls := [Import "tensorflow"; Makedirs output_dir true] |})
      | Ret _ =>
          match load_model "brain_stroke_model" with
          | Ret m =>
              finish m ["Model loaded successfully from saved model directory"] opening
          | Raise _ =>
              match Sequential architecture with
              | Raise e =>
                  (Raise e,
                   {| stdout := [could_not_load];
                      calls := opening ++ [BuildSequential architecture] |})
              | Ret m =>
                  match compile m "adam" "binary_crossentropy" ["accuracy"] with
                  | Raise e =>
                      (Raise e,
                       {| stdout := [could_not_load];
                          calls := opening ++ [BuildSequential architecture; Compile m] |})
                  | Ret _ =>
                      finish m
                        [ could_not_load;
                          match load_weights m "brain_stroke_weights.h5" with
                          | Ret _ => "Weights loaded successfully"
                          | Raise _ => warning
                          end ]
                        (opening ++ [ BuildSequential architecture; Compile m;
                                      LoadWeights m "brain_stroke_weights.h5" ])
                  end
              end
          end
      end
  end.

End WithRuntime.

End ExportSteps.

(** ** More runtimes to run the handlers on *)

Module Doubles.

Import Py Api.

(** As [Toy.runtime], with models that answer a whole output array. *)
Definition array_runtime : Runtime := {|
  Model := list (list float);
  Image := Toy.image;
  b64decode := Toy.decode;
  Image_open := Toy.open;
  Image_mode := Toy.mode;
  Image_size := Toy.size;
  Image_convert := fun img m =>
    Ret {| Toy.mode := m; Toy.size := Toy.size img; Toy.colour := Toy.colour img |};
  Image_resize := fun img sz =>
    Ret {| Toy.mode := Toy.mode img; Toy.size := sz; Toy.colour := Toy.colour img |};
  np_array := Toy.array;
  Model_predict := fun m _ => Ret m;
  format_1f := fun _ => "?"
|}.

(** The model file is there and loads to the model answering [out]. *)
Definition world_answering (out : list (list float)) : World (R := array_runtime) :=
  @Build_World array_runtime (fun _ => true)
    (fun _ => Ret (E := exn) (A := list (list float)) out).

(** The model file is there and keras fails on it with [e]. *)
Definition world_failing (e : exn) : World (R := Toy.runtime) :=
  @Build_World Toy.runtime (fun _ => true) (fun _ => Raise (A := float) e).

End Doubles.

(** * Properties *)

(** ** Order facts about binary64 comparison *)

Module PyFloatFacts.

Import PyFloat.

Lemma SFcompare_antisym (a b : spec_float) :
  SFcompare b a = option_map CompOpp (SFcompare a b).
Proof.
  destruct a as [sa|sa| |sa ma ea], b as [sb|sb| |sb mb eb]; cbn;
    try reflexivity; try (destruct sa; reflexivity); try (destruct sb; reflexivity);
    try (destruct sa, sb; reflexivity).
  change (PosDef.Pos.compare_cont Eq) with Pos.compare.
  destruct sa, sb; cbn; try reflexivity;
    rewrite (Z.compare_antisym eb ea), (Pos.compare_antisym mb ma);
    destruct (eb ?= ea)%Z; cbn; try reflexivity;
    destruct (mb ?= ma)%positive; reflexivity.
Qed.

Lemma SFcompare_None (a b : spec_float) :
  SFcompare a b = None -> a = S754_nan \/ b = S754_nan.
Proof.
  destruct a, b; cbn; intros H; try discriminate; auto.
Qed.

Lemma SFltb_leb_trans (c a b : spec_float) :
  SFltb c a = true -> SFleb a b = true -> SFltb c b = true.
Proof.
  unfold SFltb, SFleb.
  destruct c as [sc|sc| |sc mc ec], a as [sa|sa| |sa ma ea], b as [sb|sb| |sb mb eb];
    cbn; try discriminate; try (intros; reflexivity);
    repeat match goal with s : bool |- _ => destruct s end; cbn;
    try discriminate; try (intros; reflexivity);
    change (PosDef.Pos.compare_cont Eq) with Pos.compare;
    repeat match goal with
      | |- context [(?x ?= ?y)%Z] => destruct (Z.compare_spec x y)
      | |- context [(?x ?= ?y)%positive] => destruct (Pos.compare_spec x y)
      end; cbn; try discriminate; try (intros; reflexivity); try lia.
Qed.

Lemma SFleb_not_ltb (a c : spec_float) :
  SFleb a c = true -> SFltb c a = false.
Proof.
  unfold SFleb, SFltb. rewrite (SFcompare_antisym a c).
  destruct (SFcompare a c) as [[ | | ]|]; cbn; congruence.
Qed.

Lemma SFnot_ltb_leb (a c : spec_float) :
  a <> S754_nan -> c <> S754_nan -> SFltb c a = false -> SFleb a c = true.
Proof.
  intros Ha Hc. unfold SFleb, SFltb. rewrite (SFcompare_antisym a c).
  destruct (SFcompare a c) as [[ | | ]|] eqn:E; cbn; try congruence.
  destruct (SFcompare_None _ _ E); contradiction.
Qed.

Lemma SFltb_not_nan (c a : spec_float) : SFltb c a = true -> a <> S754_nan.
Proof.
  intros H ->. unfold SFltb in H. destruct c; discriminate.
Qed.

(** [a > c] and [a <= b] give [b > c]. *)
Lemma gt_le_trans (c a b : float) :
  (a >? c)%float = true -> le a b = true -> (b >? c)%float = true.
Proof.
  unfold gt, le. rewrite !FloatAxioms.ltb_spec, FloatAxioms.leb_spec. apply SFltb_leb_trans.
Qed.

(** [a <= c] excludes [a > c]. *)
Lemma le_not_gt (a c : float) : le a c = true -> (a >? c)%float = false.
Proof.
  unfold gt, le. rewrite FloatAxioms.ltb_spec, FloatAxioms.leb_spec. apply SFleb_not_ltb.
Qed.

(** Between two thresholds: above [c1] and not above [c2] is [a <= c2]. *)
Lemma gt_not_gt_le (c1 c2 a : float) :
  is_nan c2 = false ->
  (a >? c1)%float = true -> (a >? c2)%float = false -> le a c2 = true.
Proof.
  unfold gt, le, is_nan. rewrite !FloatAxioms.ltb_spec, FloatAxioms.leb_spec, FloatAxioms.eqb_spec.
  intros Hc H1 H2. apply SFnot_ltb_leb; trivial.
  - exact (SFltb_not_nan _ _ H1).
  - intros E. rewrite E in Hc. discriminate.
Qed.

(** A float above a threshold is above every lower threshold. *)
Lemma gt_lower (c1 c2 a : float) :
  (c1 >? c2)%float = true -> (a >? c1)%float = true -> (a >? c2)%float = true.
Proof.
  unfold gt. rewrite !FloatAxioms.ltb_spec. intros H12 H1.
  apply (SFltb_leb_trans _ (Prim2SF c1)); trivial.
  unfold SFltb in H1. unfold SFleb.
  destruct (SFcompare (Prim2SF c1) (Prim2SF a)) as [[ | | ]|]; congruence.
Qed.

Lemma gt_09_08 (p : float) : (p >? 0.9)%float = true -> (p >? 0.8)%float = true.
Proof. apply gt_lower. reflexivity. Qed.

Lemma gt_08_05 (p : float) : (p >? 0.8)%float = true -> (p >? 0.5)%float = true.
Proof. apply gt_lower. reflexivity. Qed.

Lemma gt_09_05 (p : float) : (p >? 0.9)%float = true -> (p >? 0.5)%float = true.
Proof. intros H. apply gt_08_05, gt_09_08, H. Qed.

End PyFloatFacts.

(** ** The severity classifier *)

Module SeverityFacts.

Import PyFloat PyFloatFacts.

Lemma eq_str_true (s : option string) (lit : string) :
  Main.eq_str s lit = true <-> s = Some lit.
Proof.
  destruct s as [x|]; cbn.
  - rewrite String.eqb_eq. split; congruence.
  - split; discriminate.
Qed.

Lemma eq_str_false (s : option string) (lit : string) :
  Main.eq_str s lit = false <-> s <> Some lit.
Proof.
  rewrite <- eq_str_true. destruct (Main.eq_str s lit); split; congruence.
Qed.

(** The if-chain of the code is the table of section 4.3 read top down. *)
Lemma get_severity_first_match (p : float) :
  Main.get_severity p = Spec.first_match Spec.severity_table p.
Proof.
  unfold Main.get_severity, Spec.severity_table, Spec.first_match.
  destruct (p >? 0.9)%float; [reflexivity|].
  destruct (p >? 0.8)%float; [reflexivity|].
  destruct (p >? 0.5)%float; reflexivity.
Qed.

Lemma get_severity_Severe (p : float) :
  Main.get_severity p = Some "Severe" <-> (p >? 0.9)%float = true.
Proof.
  unfold Main.get_severity.
  destruct (p >? 0.9)%float; [tauto|].
  destruct (p >? 0.8)%float; [split; discriminate|].
  destruct (p >? 0.5)%float; split; discriminate.
Qed.

Lemma get_severity_Moderate (p : float) :
  Main.get_severity p = Some "Moderate"
  <-> (p >? 0.8)%float = true /\ le p 0.9 = true.
Proof.
  unfold Main.get_severity.
  destruct (p >? 0.9)%float eqn:H9.
  - split; [discriminate|]. intros [_ H]. apply le_not_gt in H. congruence.
  - destruct (p >? 0.8)%float eqn:H8.
    + split; [|reflexivity]. intros _. split; [reflexivity|].
      now apply (gt_not_gt_le 0.8).
    + destruct (p >? 0.5)%float; split; try discriminate; intros [H _]; discriminate.
Qed.

Lemma get_severity_Mild (p : float) :
  Main.get_severity p = Some "Mild"
  <-> (p >? 0.5)%float = true /\ le p 0.8 = true.
Proof.
  unfold Main.get_severity.
  destruct (p >? 0.9)%float eqn:H9.
  - split; [discriminate|]. intros [_ H]. apply le_not_gt in H.
    apply gt_09_08 in H9. congruence.
  - destruct (p >? 0.8)%float eqn:H8.
    + split; [discriminate|]. intros [_ H]. apply le_not_gt in H. congruence.
    + destruct (p >? 0.5)%float eqn:H5.
      * split; [|reflexivity]. intros _. split; [reflexivity|].
        now apply (gt_not_gt_le 0.5).
      * split; [discriminate|]. intros [H _]; discriminate.
Qed.

Lemma get_severity_None (p : float) :
  Main.get_severity p = None <-> (p >? 0.5)%float = false.
Proof.
  unfold Main.get_severity.
  destruct (p >? 0.9)%float eqn:H9.
  - apply gt_09_05 in H9. rewrite H9. split; discriminate.
  - destruct (p >? 0.8)%float eqn:H8.
    + apply gt_08_05 in H8. rewrite H8. split; discriminate.
    + destruct (p >? 0.5)%float; split; congruence.
Qed.

(** The four outcomes, one per float. *)
Lemma get_severity_cases (p : float) :
  Main.get_severity p = None \/ Main.get_severity p = Some "Mild"
  \/ Main.get_severity p = Some "Moderate" \/ Main.get_severity p = Some "Severe".
Proof.
  unfold Main.get_severity.
  destruct (p >? 0.9)%float; [tauto|].
  destruct (p >? 0.8)%float; [tauto|].
  destruct (p >? 0.5)%float; tauto.
Qed.

Lemma tier_get_severity (p : float) :
  Spec.tier (Main.get_severity p) =
    if (p >? 0.9)%float then 3 else if (p >? 0.8)%float then 2
    else if (p >? 0.5)%float then 1 else 0.
Proof.
  unfold Main.get_severity.
  destruct (p >? 0.9)%float; [reflexivity|].
  destruct (p >? 0.8)%float; [reflexivity|].
  destruct (p >? 0.5)%float; reflexivity.
Qed.

Lemma get_severity_monotone (p1 p2 : float) :
  le p1 p2 = true ->
  Spec.tier (Main.get_severity p1) <= Spec.tier (Main.get_severity p2).
Proof.
  intros Hle. rewrite !tier_get_severity.
  destruct (p1 >? 0.9)%float eqn:A9.
  { rewrite (gt_le_trans _ _ _ A9 Hle). lia. }
  destruct (p1 >? 0.8)%float eqn:A8.
  { rewrite (gt_le_trans _ _ _ A8 Hle). destruct (p2 >? 0.9)%float; lia. }
  destruct (p1 >? 0.5)%float eqn:A5.
  { rewrite (gt_le_trans _ _ _ A5 Hle).
    destruct (p2 >? 0.9)%float, (p2 >? 0.8)%float; lia. }
  destruct (p2 >? 0.9)%float, (p2 >? 0.8)%float, (p2 >? 0.5)%float; lia.
Qed.

(** C1: for every probability the classifier answers "Severe" above 0.9,
    else "Moderate" above 0.8, else "Mild" above 0.5, else None: the table
    of section 4.3 read top down with the first match winning, each threshold
    an exclusive lower bound (0.9, 0.8 and 0.5 themselves fall in the band
    below). *)
Theorem get_severity_thresholds (p : float) :
  Main.get_severity p = Spec.first_match Spec.severity_table p
  /\ (Main.get_severity p = Some "Severe" <-> (p >? 0.9)%float = true)
  /\ (Main.get_severity p = Some "Moderate"
      <-> (p >? 0.8)%float = true /\ le p 0.9 = true)
  /\ (Main.get_severity p = Some "Mild"
      <-> (p >? 0.5)%float = true /\ le p 0.8 = true)
  /\ (Main.get_severity p = None <-> (p >? 0.5)%float = false)
  /\ Main.get_severity 0.9 = Some "Moderate"
  /\ Main.get_severity 0.8 = Some "Mild"
  /\ Main.get_severity 0.5 = None.
Proof.
  split; [apply get_severity_first_match|].
  split; [apply get_severity_Severe|].
  split; [apply get_severity_Moderate|].
  split; [apply get_severity_Mild|].
  split; [apply get_severity_None|].
  repeat split.
Qed.

(** C8: the severity function is monotone for the tier order
    None < Mild < Moderate < Severe, every probability of [0,1] gets exactly
    one of the four tiers, and 0.95, 0.85, 0.6, 0.3 get Severe, Moderate,
    Mild, None. *)
Theorem get_severity_monotone_exhaustive :
  (forall p1 p2 : float, le p1 p2 = true ->
     Spec.tier (Main.get_severity p1) <= Spec.tier (Main.get_severity p2))
  /\ (forall p : float, in_unit p = true ->
        exists! t : option string,
          In t [None; Some "Mild"; Some "Moderate"; Some "Severe"]
          /\ Main.get_severity p = t)
  /\ Spec.tier None < Spec.tier (Some "Mild")
  /\ Spec.tier (Some "Mild") < Spec.tier (Some "Moderate")
  /\ Spec.tier (Some "Moderate") < Spec.tier (Some "Severe")
  /\ Main.get_severity 0.95 = Some "Severe"
  /\ Main.get_severity 0.85 = Some "Moderate"
  /\ Main.get_severity 0.6 = Some "Mild"
  /\ Main.get_severity 0.3 = None.
Proof.
  split; [exact get_severity_monotone|].
  split.
  - intros p _. exists (Main.get_severity p). split.
    + split; [|reflexivity].
      destruct (get_severity_cases p) as [E|[E|[E|E]]]; rewrite E; cbn; tauto.
    + intros t [_ E]. exact E.
  - cbn. repeat split; lia.
Qed.

End SeverityFacts.

(** ** The recommendation generator *)

Module RecommendationFacts.

Import PyFloat PyFloatFacts SeverityFacts.

(** At or below 0.5 the severity argument is never looked at. *)
Lemma get_recommendations_normal (c : float) (s : option string) :
  (c >? 0.5)%float = false -> Main.get_recommendations c s = Spec.normal_list.
Proof.
  intros H. unfold Main.get_recommendations. rewrite H. reflexivity.
Qed.

Lemma get_recommendations_Severe (c : float) :
  (c >? 0.5)%float = true ->
  Main.get_recommendations c (Some "Severe") = Spec.severe_urgent ++ Spec.base_list.
Proof.
  intros H. unfold Main.get_recommendations. rewrite H. reflexivity.
Qed.

Lemma get_recommendations_Moderate (c : float) :
  (c >? 0.5)%float = true ->
  Main.get_recommendations c (Some "Moderate") = Spec.moderate_urgent ++ Spec.base_list.
Proof.
  intros H. unfold Main.get_recommendations. rewrite H. reflexivity.
Qed.

Lemma get_recommendations_other (c : float) (s : option string) :
  (c >? 0.5)%float = true -> s <> Some "Severe" -> s <> Some "Moderate" ->
  Main.get_recommendations c s = Spec.mild_list.
Proof.
  intros H HS HM. unfold Main.get_recommendations. rewrite H.
  apply eq_str_false in HS, HM. rewrite HS, HM. reflexivity.
Qed.

(** Whatever the pair, one of the four fixed lists. *)
Lemma get_recommendations_cases (c : float) (s : option string) :
  In (Main.get_recommendations c s)
     [ Spec.normal_list; Spec.severe_urgent ++ Spec.base_list;
       Spec.moderate_urgent ++ Spec.base_list; Spec.mild_list ].
Proof.
  unfold Main.get_recommendations.
  destruct (c >? 0.5)%float; [|left; reflexivity].
  destruct (Main.eq_str s "Severe"); [right; left; reflexivity|].
  destruct (Main.eq_str s "Moderate"); [right; right; left; reflexivity|].
  right; right; right; left; reflexivity.
Qed.

(** C3: with the severity derived from the probability, a probability at or
    below 0.5 gets the 4-item normal-monitoring list; Severe gets the 4 urgent
    strings then the 3-item base list (7 items, the emergency-care string
    first); Moderate the 3 urgent strings then the base list (6 items); Mild
    the schedule-evaluation string, the base list and the 2 follow-up strings
    (6 items). *)
Theorem get_recommendations_by_tier (p : float) :
  let s := Main.get_severity p in
  let r := Main.get_recommendations p s in
  (le p 0.5 = true -> r = Spec.normal_list /\ length r = 4)
  /\ (s = Some "Severe" ->
      r = Spec.severe_urgent ++ Spec.base_list /\ length r = 7
      /\ hd_error r = Some "⚠️ SEEK IMMEDIATE EMERGENCY CARE")
  /\ (s = Some "Moderate" ->
      r = Spec.moderate_urgent ++ Spec.base_list /\ length r = 6)
  /\ (s = Some "Mild" ->
      r = ["Schedule medical evaluation"] ++ Spec.base_list
          ++ ["Follow up with chest X-rays as advised";
              "Complete prescribed medications if given"]
      /\ length r = 6).
Proof.
  cbv zeta. repeat apply conj.
  - intros H. apply le_not_gt in H.
    rewrite (get_recommendations_normal _ _ H). split; reflexivity.
  - intros E. rewrite E. apply get_severity_Severe, gt_09_05 in E.
    rewrite (get_recommendations_Severe _ E). repeat split.
  - intros E. rewrite E. apply get_severity_Moderate in E.
    destruct E as [E _]. apply gt_08_05 in E.
    rewrite (get_recommendations_Moderate _ E). split; reflexivity.
  - intros E. rewrite E. apply get_severity_Mild in E. destruct E as [E _].
    rewrite (get_recommendations_other _ _ E); [split; reflexivity| |];
      discriminate.
Qed.

(** C10: the generator tests the confidence before the severity argument: at
    or below 0.5 every severity value gets the normal-monitoring list; above
    0.5 every severity value other than "Severe" and "Moderate" (None
    included) gets the 6-item Mild list; and whatever the pair, the answer is
    one of the four fixed lists, never a mixture. *)
Theorem get_recommendations_confidence_first (c : float) (s : option string) :
  (le c 0.5 = true -> Main.get_recommendations c s = Spec.normal_list)
  /\ ((c >? 0.5)%float = true -> s <> Some "Severe" -> s <> Some "Moderate" ->
      Main.get_recommendations c s = Spec.mild_list
      /\ length (Main.get_recommendations c s) = 6)
  /\ ((c >? 0.5)%float = true ->
      Main.get_recommendations c None = Spec.mild_list)
  /\ In (Main.get_recommendations c s)
        [ Spec.normal_list; Spec.severe_urgent ++ Spec.base_list;
          Spec.moderate_urgent ++ Spec.base_list; Spec.mild_list ].
Proof.
  repeat apply conj.
  - intros H. apply get_recommendations_normal, le_not_gt, H.
  - intros H HS HM. rewrite (get_recommendations_other _ _ H HS HM).
    split; reflexivity.
  - intros H. apply get_recommendations_other; [exact H| |]; discriminate.
  - apply get_recommendations_cases.
Qed.

End RecommendationFacts.

(** ** The handlers of the service *)

Module HandlerFacts.

Import PyFloat PyFloatFacts SeverityFacts RecommendationFacts Py Api BigStep.

Section WithRuntime.

Context {R : Runtime}.

Lemma after_nil (st : state) : after st (model st) [] [] = st.
Proof. destruct st; unfold after; cbn. now rewrite !app_nil_r. Qed.

(** [load_model], case by case. *)
Lemma load_model_eq (w : World) (st : state) :
  load_model w st =
    if path_exists w model_path then
      match keras_load_model w model_path with
      | Ret m =>
          (Ret tt,
           after st (Some m)
             ["Model loaded successfully from pneumonia_detection_model.h5"]
             [OsPathExists model_path; KerasLoadModel model_path])
      | Raise e =>
          (Raise e,
           after st (model st) []
             [OsPathExists model_path; KerasLoadModel model_path])
      end
    else
      (Raise (Exception "Model file not found at pneumonia_detection_model.h5"),
       after st (model st) [] [OsPathExists model_path]).
Proof.
  unfold load_model, bindM, log, ret, lift, raise, set_model, print, after; cbn.
  fold model_path.
  destruct (path_exists w model_path); cbn; [|now rewrite app_nil_r].
  destruct (keras_load_model w model_path); cbn;
    now rewrite <- ?app_assoc, ?app_nil_r.
Qed.

Lemma recommendations_code (p : float) :
  Main.get_recommendations p (Main.get_severity p)
  = Api.recommendations (Spec.assemble format_1f p).
Proof.
  unfold Spec.assemble, Api.recommendations.
  pose proof (get_severity_cases p) as Hc.
  rewrite (get_severity_first_match p) in Hc |- *.
  destruct (p >? 0.5)%float eqn:H5; [|now apply get_recommendations_normal].
  destruct Hc as [E|[E|[E|E]]]; rewrite E.
  - apply get_recommendations_other; [exact H5| |]; discriminate.
  - apply get_recommendations_other; [exact H5| |]; discriminate.
  - now apply get_recommendations_Moderate.
  - now apply get_recommendations_Severe.
Qed.

Lemma assemble_code (p : float) :
  {| prediction := if (p >? 0.5)%float then "Pneumonia" else "Normal";
     confidence := p;
     pneumoniaProbability := p;
     details :=
       {| lungOpacity :=
            ((if (p >? 0.5)%float then "Increased" else "Normal")
             ++ " opacity detected in lung fields ("
             ++ format_1f (p * 100)%float ++ "% confidence)")%string;
          infiltrates :=
            if (p >? 0.5)%float then "Likely presence of infiltrates"
            else "No significant infiltrates detected";
          consolidation :=
            if (p >? 0.5)%float then "Potential areas of consolidation observed"
            else "No consolidation observed";
          severity := Main.get_severity p |};
     recommendations := Main.get_recommendations p (Main.get_severity p) |}
  = Spec.assemble format_1f p.
Proof.
  rewrite recommendations_code, (get_severity_first_match p). reflexivity.
Qed.

Lemma second_try_eq (w : World) (m : Model) (request : ImageRequest) (st : state) :
  model st = Some m ->
  try_except Uncaught
    (processed_image <--
       (log (PreprocessImage (image request)) ;;
        lift (preprocess_image (image request)));
     m <-- get_model;
     prediction <--
       match m with
       | Some m => log ModelPredict ;; lift (Model_predict m processed_image)
       | None => raise (Exception "'NoneType' object has no attribute 'predict'")
       end;
     row <-- lift (Py.getitem prediction 0);
     pneumonia_probability <-- lift (Py.getitem row 0);
     ret {| prediction := if (pneumonia_probability >? 0.5)%float then "Pneumonia" else "Normal";
            confidence := pneumonia_probability;
            pneumoniaProbability := pneumonia_probability;
            details :=
              {| lungOpacity :=
                   ((if (pneumonia_probability >? 0.5)%float then "Increased" else "Normal")
                    ++ " opacity detected in lung fields ("
                    ++ format_1f (pneumonia_probability * 100)%float
                    ++ "% confidence)")%string;
                 infiltrates :=
                   if (pneumonia_probability >? 0.5)%float
                   then "Likely presence of infiltrates"
                   else "No significant infiltrates detected";
                 consolidation :=
                   if (pneumonia_probability >? 0.5)%float
                   then "Potential areas of consolidation observed"
                   else "No consolidation observed";
                 severity := Main.get_severity pneumonia_probability |};
            recommendations :=
              Main.get_recommendations pneumonia_probability
                (Main.get_severity pneumonia_probability) |})%py
    (fun e => raise (HTTPException 500 e)) st
  = serve m request st.
Proof.
  intros Hm. unfold serve, try_except, bindM, log, lift, get_model, raise, ret, after.
  cbn.
  destruct (preprocess_image (image request)) as [t|e]; cbn.
  - rewrite Hm. cbn.
    destruct (Model_predict m t) as [pr|e]; cbn;
      [|destruct e; cbn; rewrite <- ?app_assoc, ?app_nil_r; reflexivity].
    destruct (Py.getitem pr 0) as [row|e]; cbn;
      [|destruct e; cbn; rewrite <- ?app_assoc, ?app_nil_r; reflexivity].
    destruct (Py.getitem row 0) as [p|e]; cbn;
      [|destruct e; cbn; rewrite <- ?app_assoc, ?app_nil_r; reflexivity].
    rewrite <- ?app_assoc, ?app_nil_r. cbn. do 2 f_equal. apply assemble_code.
  - destruct e; cbn; rewrite ?app_nil_r; reflexivity.
Qed.

(** [predict], case by case: the lazy load when there is no model, then the
    second [try]. *)
Lemma predict_eq (w : World) (request : ImageRequest) (st : state) :
  predict w request st =
    match model st with
    | Some m => serve m request st
    | None =>
        if path_exists w model_path then
          match keras_load_model w model_path with
          | Ret m =>
              serve m request
                (after st (Some m)
                   ["Model loaded successfully from pneumonia_detection_model.h5"]
                   [OsPathExists model_path; KerasLoadModel model_path])
          | Raise e =>
              (wrap500 "Model not loaded: " e,
               after st None [] [OsPathExists model_path; KerasLoadModel model_path])
          end
        else
          (Raise (HTTPException 500
                    "Model not loaded: Model file not found at pneumonia_detection_model.h5"),
           after st None [] [OsPathExists model_path])
    end.
Proof.
  unfold predict. unfold bindM at 1. unfold get_model at 1. cbn.
  destruct (model st) as [m|] eqn:Hm; cbn.
  - unfold bindM at 1. unfold ret at 1. now apply second_try_eq.
  - unfold bindM at 1. unfold try_except at 1.
    rewrite load_model_eq, Hm.
    destruct (path_exists w model_path); [|reflexivity].
    destruct (keras_load_model w model_path) as [m|e].
    + now apply second_try_eq.
    + destruct e; reflexivity.
Qed.

Lemma wrap500_not_Ret {A} (prefix : string) (e : exn) (a : A) :
  wrap500 prefix e <> Ret a.
Proof. destruct e; discriminate. Qed.

(** A result of the second [try] is assembled from one probability; the
    model, and what was printed, stay as they were. *)
Lemma serve_Ret (m : Model) (request : ImageRequest) (st st' : state)
  (r : PredictionResult) :
  serve m request st = (Ret r, st') ->
  r = Spec.assemble format_1f (confidence r)
  /\ st' = after st (model st) [] [PreprocessImage (image request); ModelPredict].
Proof.
  unfold serve.
  destruct (preprocess_image (image request)) as [t|e].
  - destruct (Model_predict m t) as [pr|e]; cbn;
      [|intros H; inversion H as [[H1 H2]]; now apply wrap500_not_Ret in H1].
    destruct (Py.getitem pr 0) as [row|e]; cbn;
      [|intros H; inversion H as [[H1 H2]]; now apply wrap500_not_Ret in H1].
    destruct (Py.getitem row 0) as [p|e]; cbn;
      [|intros H; inversion H as [[H1 H2]]; now apply wrap500_not_Ret in H1].
    intros H; inversion H; subst. split; reflexivity.
  - intros H; inversion H as [[H1 H2]]. now apply wrap500_not_Ret in H1.
Qed.

(** A 200 answer of [predict] is assembled from one probability, and leaves
    a model loaded. *)
Lemma predict_Ret (w : World) (request : ImageRequest) (st st' : state)
  (r : PredictionResult) :
  predict w request st = (Ret r, st') ->
  r = Spec.assemble format_1f (confidence r)
  /\ exists m, model st' = Some m.
Proof.
  rewrite predict_eq.
  destruct (model st) as [m|] eqn:Hm.
  - intros H. apply serve_Ret in H. destruct H as [Hr ->].
    split; [exact Hr|]. exists m. exact Hm.
  - destruct (path_exists w model_path); [|discriminate].
    destruct (keras_load_model w model_path) as [m|e].
    + intros H. apply serve_Ret in H. destruct H as [Hr ->].
      split; [exact Hr|]. exists m. reflexivity.
    + intros H; inversion H as [[H1 H2]]. now apply wrap500_not_Ret in H1.
Qed.

Lemma getitem_Ret {A} (l : list A) (i : nat) (a : A) :
  Py.getitem l i = Ret a <-> nth_error l i = Some a.
Proof.
  unfold Py.getitem. destruct (nth_error l i); split; intros H;
    inversion H; reflexivity.
Qed.

(** A result of the second [try], traced back to the output of the model. *)
Lemma serve_Ret_from_model (m : Model) (request : ImageRequest) (st st' : state)
  (r : PredictionResult) :
  serve m request st = (Ret r, st') ->
  exists t out row p,
    preprocess_image (image request) = Ret t
    /\ Model_predict m t = Ret out
    /\ nth_error out 0 = Some row /\ nth_error row 0 = Some p
    /\ r = Spec.assemble format_1f p.
Proof.
  unfold serve.
  destruct (preprocess_image (image request)) as [t|e] eqn:Ep;
    [|intros H; inversion H as [[H1 H2]]; now apply wrap500_not_Ret in H1].
  destruct (Model_predict m t) as [out|e] eqn:Em; cbn;
    [|intros H; inversion H as [[H1 H2]]; now apply wrap500_not_Ret in H1].
  destruct (Py.getitem out 0) as [row|e] eqn:E0; cbn;
    [|intros H; inversion H as [[H1 H2]]; now apply wrap500_not_Ret in H1].
  destruct (Py.getitem row 0) as [p|e] eqn:E1; cbn;
    [|intros H; inversion H as [[H1 H2]]; now apply wrap500_not_Ret in H1].
  intros H. inversion H; subst.
  exists t, out, row, p. apply getitem_Ret in E0, E1.
  repeat split; try reflexivity; assumption.
Qed.

(** With a model at hand the request is served by the second [try]. *)
Lemma predict_serves (w : World) (request : ImageRequest) (st : state) (m : Model) :
  available w st = Some m ->
  exists st1, predict w request st = serve m request st1.
Proof.
  intros Ha. rewrite predict_eq. unfold available, load_gives in Ha.
  destruct (model st) as [m0|].
  - inversion Ha; subst. eauto.
  - destruct (path_exists w model_path); [|discriminate].
    destruct (keras_load_model w model_path) as [m0|e]; [|discriminate].
    inversion Ha; subst. eauto.
Qed.

Lemma predict_Ret_available (w : World) (request : ImageRequest) (st st' : state)
  (r : PredictionResult) :
  predict w request st = (Ret r, st') ->
  exists m st1, available w st = Some m /\ serve m request st1 = (Ret r, st').
Proof.
  rewrite predict_eq. unfold available, load_gives.
  destruct (model st) as [m|]; [eauto|].
  destruct (path_exists w model_path); [|discriminate].
  destruct (keras_load_model w model_path) as [m|e]; [eauto|].
  intros H; inversion H as [[H1 H2]]. now apply wrap500_not_Ret in H1.
Qed.

(** What the >0.5 test decides in the result assembled from [p]. *)
Lemma assemble_prediction (fmt : float -> string) (p : float) :
  let r := Spec.assemble fmt p in
  pneumoniaProbability r = p
  /\ confidence r = p
  /\ (prediction r = "Pneumonia" <-> (p >? 0.5)%float = true)
  /\ (prediction r = "Normal" <-> (p >? 0.5)%float = false)
  /\ infiltrates (details r) =
       (if (p >? 0.5)%float then "Likely presence of infiltrates"
        else "No significant infiltrates detected")
  /\ consolidation (details r) =
       (if (p >? 0.5)%float then "Potential areas of consolidation observed"
        else "No consolidation observed").
Proof.
  cbn. unfold gt. destruct (0.5 <? p)%float; repeat split; intros;
    try reflexivity; discriminate.
Qed.

(** C2: the probability is the entry at [0][0] of the model's output on the
    preprocessed image, and the result the handler assembles from it says
    "Pneumonia" exactly when that probability is above 0.5 (strictly: 0.5
    itself gives "Normal"); the same test selects the infiltrates and
    consolidation strings.  So for every probability the model gives; and
    every result the handler returns is assembled this way from what the
    model gave. *)
Theorem predict_prediction_field (w : World) (request : ImageRequest)
  (st : state) :
  (forall (m : Model) (t : ndarray4) (out : list (list float)) (row : list float)
          (p : float),
     available w st = Some m ->
     preprocess_image (image request) = Ret t ->
     Model_predict m t = Ret out ->
     nth_error out 0 = Some row -> nth_error row 0 = Some p ->
     exists r st',
       predict w request st = (Ret r, st')
       /\ pneumoniaProbability r = p
       /\ confidence r = p
       /\ (prediction r = "Pneumonia" <-> (p >? 0.5)%float = true)
       /\ (prediction r = "Normal" <-> (p >? 0.5)%float = false)
       /\ infiltrates (details r) =
            (if (p >? 0.5)%float then "Likely presence of infiltrates"
             else "No significant infiltrates detected")
       /\ consolidation (details r) =
            (if (p >? 0.5)%float then "Potential areas of consolidation observed"
             else "No consolidation observed"))
  /\ (forall (st' : state) (r : PredictionResult),
        predict w request st = (Ret r, st') ->
        let p := pneumoniaProbability r in
        (exists (m : Model) (t : ndarray4) (out : list (list float))
                (row : list float),
            available w st = Some m
            /\ preprocess_image (image request) = Ret t
            /\ Model_predict m t = Ret out
            /\ nth_error out 0 = Some row /\ nth_error row 0 = Some p)
        /\ confidence r = p
        /\ (prediction r = "Pneumonia" <-> (p >? 0.5)%float = true)
        /\ (prediction r = "Normal" <-> (p >? 0.5)%float = false)
        /\ infiltrates (details r) =
             (if (p >? 0.5)%float then "Likely presence of infiltrates"
              else "No significant infiltrates detected")
        /\ consolidation (details r) =
             (if (p >? 0.5)%float then "Potential areas of consolidation observed"
              else "No consolidation observed")).
Proof.
  split.
  - intros m t out row p Ha Hp Hm H0 H1.
    destruct (predict_serves w request st m Ha) as [st1 E].
    exists (Spec.assemble format_1f p), (snd (serve m request st1)).
    split; [|apply assemble_prediction].
    rewrite E. unfold serve. rewrite Hp, Hm.
    apply getitem_Ret in H0, H1. cbn [Py.bind]. rewrite H0. cbn [Py.bind].
    rewrite H1. reflexivity.
  - intros st' r H. cbv zeta.
    destruct (predict_Ret_available _ _ _ _ _ H) as (m & st1 & Ha & Hs).
    destruct (serve_Ret_from_model _ _ _ _ _ Hs)
      as (t & out & row & p & Hp & Hm & H0 & H1 & ->).
    pose proof (assemble_prediction format_1f p) as P. cbv zeta in P.
    destruct P as (P1 & P2 & P3 & P4 & P5 & P6).
    rewrite P1. split; [exists m, t, out, row; repeat split; assumption|].
    repeat split; try assumption; try apply P3; try apply P4.
Qed.

Lemma wrap500_surfaced (prefix : string) (e : exn) : surfaced (wrap500 prefix e).
Proof. destruct e; reflexivity. Qed.

Lemma serve_surfaced (m : Model) (request : ImageRequest) (st : state) :
  surfaced (fst (serve m request st)).
Proof.
  unfold serve.
  destruct (preprocess_image (image request)) as [t|e]; cbn;
    [|apply wrap500_surfaced].
  destruct (Model_predict m t) as [pr|e]; cbn; [|apply wrap500_surfaced].
  destruct (Py.getitem pr 0) as [row|e]; cbn; [|apply wrap500_surfaced].
  destruct (Py.getitem row 0) as [p|e]; cbn; [exact I|apply wrap500_surfaced].
Qed.

Lemma predict_surfaced (w : World) (request : ImageRequest) (st : state) :
  surfaced (fst (predict w request st)).
Proof.
  rewrite predict_eq.
  destruct (model st) as [m|]; [apply serve_surfaced|].
  destruct (path_exists w model_path); [|reflexivity].
  destruct (keras_load_model w model_path) as [m|e];
    [apply serve_surfaced|apply wrap500_surfaced].
Qed.

(** A failure of [preprocess_image] or of the forward pass, with a model at
    hand, is a 500 carrying [str(e)]. *)
Lemma predict_preprocess_error (w : World) (request : ImageRequest) (st : state)
  (m : Model) (msg : string) :
  available w st = Some m ->
  preprocess_image (image request) = Raise (Exception msg) ->
  fst (predict w request st) = Raise (HTTPException 500 msg).
Proof.
  intros Ha Hp. rewrite predict_eq. unfold available, load_gives in Ha.
  destruct (model st) as [m0|].
  - unfold serve. rewrite Hp. reflexivity.
  - destruct (path_exists w model_path); [|discriminate].
    destruct (keras_load_model w model_path) as [m0|e]; [|discriminate].
    unfold serve. rewrite Hp. reflexivity.
Qed.

Lemma predict_forward_error (w : World) (request : ImageRequest) (st : state)
  (m : Model) (t : ndarray4) (msg : string) :
  available w st = Some m ->
  preprocess_image (image request) = Ret t ->
  Model_predict m t = Raise (Exception msg) ->
  fst (predict w request st) = Raise (HTTPException 500 msg).
Proof.
  intros Ha Hp Hf. rewrite predict_eq. unfold available, load_gives in Ha.
  destruct (model st) as [m0|].
  - inversion Ha; subst. unfold serve. rewrite Hp, Hf. reflexivity.
  - destruct (path_exists w model_path); [|discriminate].
    destruct (keras_load_model w model_path) as [m0|e]; [|discriminate].
    inversion Ha; subst. unfold serve. rewrite Hp, Hf. reflexivity.
Qed.

(** A failure of the base64 decoder or of [Image.open] is a failure of
    [preprocess_image] with the same exception. *)
Lemma preprocess_image_b64_error (image_data s : string) (e : exn) :
  payload image_data = Ret s -> b64decode s = Raise e ->
  preprocess_image image_data = Raise e.
Proof.
  unfold preprocess_image, payload. intros -> H. cbn. rewrite H. reflexivity.
Qed.

Lemma preprocess_image_open_error (image_data s : string) (raw : bytes) (e : exn) :
  payload image_data = Ret s -> b64decode s = Ret raw -> Image_open raw = Raise e ->
  preprocess_image image_data = Raise e.
Proof.
  unfold preprocess_image, payload. intros -> H1 H2. cbn. rewrite H1. cbn.
  rewrite H2. reflexivity.
Qed.

(** The calls one request makes: none twice, the load ones exactly when
    there was no model. *)
Lemma serve_calls (m : Model) (request : ImageRequest) (st : state) :
  exists cs,
    calls (snd (serve m request st)) = calls st ++ cs
    /\ (cs = [PreprocessImage (image request)]
        \/ cs = [PreprocessImage (image request); ModelPredict]).
Proof.
  unfold serve.
  destruct (preprocess_image (image request)); cbn; eauto.
Qed.

Lemma predict_calls (w : World) (request : ImageRequest) (st : state) :
  exists cs,
    calls (snd (predict w request st)) = calls st ++ cs
    /\ NoDup cs
    /\ (In (OsPathExists model_path) cs <-> model st = None)
    /\ (In (KerasLoadModel model_path) cs
        <-> model st = None /\ path_exists w model_path = true).
Proof.
  rewrite predict_eq.
  destruct (model st) as [m|] eqn:Hm.
  - destruct (serve_calls m request st) as [cs [E [-> | ->]]]; eexists;
      (split; [exact E|]);
      (split; [repeat constructor; cbn; intuition discriminate|]);
      split; cbn; intuition discriminate.
  - destruct (path_exists w model_path) eqn:Hp.
    + destruct (keras_load_model w model_path) as [m|e].
      * match goal with |- context [serve m request ?s] =>
          destruct (serve_calls m request s) as [cs [E [-> | ->]]] end;
          rewrite E; cbn; rewrite <- app_assoc; eexists;
          (split; [reflexivity|]);
          (split; [repeat constructor; cbn; intuition discriminate|]);
          split; cbn; intuition discriminate.
      * cbn. eexists. split; [reflexivity|].
        split; [repeat constructor; cbn; intuition discriminate|].
        split; cbn; intuition discriminate.
    + cbn. eexists. split; [reflexivity|].
      split; [repeat constructor; cbn; intuition discriminate|].
      split; cbn; intuition discriminate.
Qed.

(** C6: every error in handling a /predict request is caught at the request
    boundary and leaves the handler as an HTTP 500 with a message: a missing
    model file after the one lazy load attempt, a load that fails, a malformed
    base64 text, an image that does not decode, an exception of the forward
    pass.  Only what is not an [Exception] passes uncaught.  Nothing is tried
    twice: a request makes each call at most once, the load calls exactly when
    no model was loaded. *)
Theorem predict_errors_surface_as_500 (w : World) (request : ImageRequest)
  (st : state) :
  surfaced (fst (predict w request st))
  /\ (model st = None -> path_exists w model_path = false ->
      predict w request st =
        (Raise (HTTPException 500
                  "Model not loaded: Model file not found at pneumonia_detection_model.h5"),
         after st None [] [OsPathExists model_path]))
  /\ (forall msg, model st = None -> path_exists w model_path = true ->
      keras_load_model w model_path = Raise (Exception msg) ->
      fst (predict w request st)
      = Raise (HTTPException 500 ("Model not loaded: " ++ msg)%string))
  /\ (forall m s msg, available w st = Some m ->
      payload (image request) = Ret s ->
      b64decode s = Raise (Exception msg) ->
      fst (predict w request st) = Raise (HTTPException 500 msg))
  /\ (forall m s raw msg, available w st = Some m ->
      payload (image request) = Ret s ->
      b64decode s = Ret raw -> Image_open raw = Raise (Exception msg) ->
      fst (predict w request st) = Raise (HTTPException 500 msg))
  /\ (forall m t msg, available w st = Some m ->
      preprocess_image (image request) = Ret t ->
      Model_predict m t = Raise (Exception msg) ->
      fst (predict w request st) = Raise (HTTPException 500 msg))
  /\ (exists cs,
        calls (snd (predict w request st)) = calls st ++ cs
        /\ NoDup cs
        /\ (In (OsPathExists model_path) cs <-> model st = None)
        /\ (In (KerasLoadModel model_path) cs
            <-> model st = None /\ path_exists w model_path = true)).
Proof.
  split; [apply predict_surfaced|].
  split.
  { intros Hm Hp. rewrite predict_eq, Hm, Hp. reflexivity. }
  split.
  { intros msg Hm Hp Hk. rewrite predict_eq, Hm, Hp, Hk. reflexivity. }
  split.
  { intros m s msg Ha Hs Hd. apply (predict_preprocess_error _ _ _ m); trivial.
    now apply (preprocess_image_b64_error _ s). }
  split.
  { intros m s raw msg Ha Hs Hd Ho.
    apply (predict_preprocess_error _ _ _ m); trivial.
    now apply (preprocess_image_open_error _ s raw). }
  split.
  { intros m t msg. apply predict_forward_error. }
  apply predict_calls.
Qed.

(** *** The load state *)

Lemma startup_event_eq (w : World) (st : state) :
  startup_event w st =
    if path_exists w model_path then
      match keras_load_model w model_path with
      | Ret m =>
          (Ret tt,
           after st (Some m)
             ["Model loaded successfully from pneumonia_detection_model.h5"]
             [OsPathExists model_path; KerasLoadModel model_path])
      | Raise (Exception msg) =>
          (Ret tt,
           after st (model st) [("Error loading model: " ++ msg)%string]
             [OsPathExists model_path; KerasLoadModel model_path])
      | Raise e =>
          (Raise e,
           after st (model st) []
             [OsPathExists model_path; KerasLoadModel model_path])
      end
    else
      (Ret tt,
       after st (model st)
         ["Error loading model: Model file not found at pneumonia_detection_model.h5"]
         [OsPathExists model_path]).
Proof.
  unfold startup_event, try_except. rewrite load_model_eq.
  destruct (path_exists w model_path).
  - destruct (keras_load_model w model_path) as [m|[msg|code|]]; try reflexivity.
    unfold print, after; cbn. now rewrite app_nil_r.
  - unfold print, after; cbn. now rewrite app_nil_r.
Qed.

Lemma health_check_eq (st : state) :
  health_check (E := exn) st
  = (Ret {| status := "healthy"; model_loaded := loaded st |}, st).
Proof. reflexivity. Qed.

Lemma serve_model (m : Model) (request : ImageRequest) (st : state) :
  model (snd (serve m request st)) = model st.
Proof.
  unfold serve. destruct (preprocess_image (image request)); reflexivity.
Qed.

(** The model after a request: the one there was, else the one a load
    gives, and only /predict tries a load. *)
Lemma step_model (w : World) (ev : event) (st : state) :
  model (snd (step w ev st)) =
    match model st, ev with
    | Some m, _ => Some m
    | None, GetHealth => None
    | None, PostPredict _ => load_gives w
    end.
Proof.
  destruct ev as [request|].
  - unfold step. rewrite predict_eq.
    destruct (model st) as [m|] eqn:Hm.
    + destruct (serve m request st) as [r st1] eqn:E. cbn.
      change st1 with (snd (r, st1)). rewrite <- E, serve_model. exact Hm.
    + unfold load_gives. destruct (path_exists w model_path); [|reflexivity].
      destruct (keras_load_model w model_path) as [m|e]; [|reflexivity].
      match goal with |- context [serve m request ?s] =>
        destruct (serve m request s) as [r st1] eqn:E end.
      cbn. change st1 with (snd (r, st1)). rewrite <- E, serve_model. reflexivity.
  - cbn. destruct (model st); reflexivity.
Qed.

Lemma boot_model (w : World) : model (boot w) = load_gives w.
Proof.
  unfold boot, load_gives. rewrite startup_event_eq.
  destruct (path_exists w model_path); [|reflexivity].
  destruct (keras_load_model w model_path) as [m|[msg|code|]]; reflexivity.
Qed.

Lemma run_cons (w : World) (ev : event) (rest : list (World * event)) (st : state) :
  run ((w, ev) :: rest) st =
    (fst (step w ev st) :: fst (run rest (snd (step w ev st))),
     snd (run rest (snd (step w ev st)))).
Proof.
  cbn. destruct (step w ev st) as [r st1]. cbn.
  destruct (run rest st1); reflexivity.
Qed.

(** Once loaded, loaded for good, and with the same model. *)
Lemma run_keeps_model (evs : list (World * event)) (st : state) (m : Model) :
  model st = Some m -> model (snd (run evs st)) = Some m.
Proof.
  revert st. induction evs as [|[w ev] rest IH]; intros st Hm; [exact Hm|].
  rewrite run_cons. cbn. apply IH. rewrite step_model, Hm. reflexivity.
Qed.

(** No load that succeeds, no model. *)
Lemma run_no_load (evs : list (World * event)) (st : state) :
  model st = None ->
  Forall (fun we => load_gives (fst we) = None) evs ->
  model (snd (run evs st)) = None.
Proof.
  revert st. induction evs as [|[w ev] rest IH]; intros st Hm Hall; [exact Hm|].
  rewrite run_cons. cbn. inversion Hall as [|x l Hw Hrest]; subst. cbn in Hw.
  apply IH; [|exact Hrest]. rewrite step_model, Hm.
  destruct ev; trivial.
Qed.

Lemma loaded_true (st : state) : loaded st = true <-> exists m, model st = Some m.
Proof.
  unfold loaded. destruct (model st) as [m|]; split; try discriminate; eauto.
  intros [m H]; discriminate.
Qed.

Lemma loaded_false (st : state) : loaded st = false <-> model st = None.
Proof. unfold loaded. destruct (model st); split; congruence. Qed.

Lemma step_predict_calls (w : World) (request : ImageRequest) (st : state) :
  exists cs,
    calls (snd (step w (PostPredict request) st)) = calls st ++ cs
    /\ (In (OsPathExists model_path) cs <-> model st = None).
Proof.
  destruct (predict_calls w request st) as [cs [E [_ [H _]]]].
  exists cs. split; [|exact H].
  unfold step. destruct (predict w request st); exact E.
Qed.

Lemma step_health (w : World) (st : state) :
  step w GetHealth st
  = (HealthReply (Ret {| status := "healthy"; model_loaded := loaded st |}), st).
Proof. reflexivity. Qed.

(** C7: the load state is the global [model]: [None] or a model.  /health
    reports which of the two.  The one transition, from [None] to a model, is
    a load that succeeds; every /predict request that finds no model tries it,
    no request that finds one does, and a model once there stays.  So /health
    reports false as long as no load has succeeded, and true at any time
    after a /predict request that was answered with a result. *)
Theorem load_state_machine :
  (forall (w : World) (st : state),
     step w GetHealth st
     = (HealthReply (Ret {| status := "healthy"; model_loaded := loaded st |}), st))
  /\ (forall (w : World) (request : ImageRequest) (st : state),
        model st = None ->
        model (snd (step w (PostPredict request) st)) = load_gives w
        /\ exists cs,
             calls (snd (step w (PostPredict request) st)) = calls st ++ cs
             /\ In (OsPathExists model_path) cs)
  /\ (forall (w : World) (ev : event) (st : state) (m : Model),
        model st = Some m ->
        model (snd (step w ev st)) = Some m
        /\ forall request, ev = PostPredict request ->
             exists cs,
               calls (snd (step w ev st)) = calls st ++ cs
               /\ ~ In (OsPathExists model_path) cs)
  /\ (forall (w0 w : World) (evs : list (World * event)),
        load_gives w0 = None ->
        Forall (fun we => load_gives (fst we) = None) evs ->
        fst (step w GetHealth (snd (run evs (boot w0))))
        = HealthReply (Ret {| status := "healthy"; model_loaded := false |}))
  /\ (forall (w w' : World) (request : ImageRequest) (st st' : state)
             (r : PredictionResult) (evs : list (World * event)),
        step w (PostPredict request) st = (PredictReply (Ret r), st') ->
        fst (step w' GetHealth (snd (run evs st')))
        = HealthReply (Ret {| status := "healthy"; model_loaded := true |})).
Proof.
  split; [exact step_health|].
  split.
  { intros w request st Hm. split; [now rewrite step_model, Hm|].
    destruct (step_predict_calls w request st) as [cs [E H]].
    exists cs. split; [exact E|]. now apply H. }
  split.
  { intros w ev st m Hm. split; [now rewrite step_model, Hm|].
    intros request ->.
    destruct (step_predict_calls w request st) as [cs [E H]].
    exists cs. split; [exact E|]. intros Hin. apply H in Hin. congruence. }
  split.
  { intros w0 w evs H0 Hall. rewrite step_health. cbn [fst].
    assert (Hn : model (snd (run evs (boot w0))) = None).
    { apply run_no_load; [|exact Hall]. now rewrite boot_model. }
    apply loaded_false in Hn. now rewrite Hn. }
  intros w w' request st st' r evs H. rewrite step_health. cbn [fst].
  assert (Hs : exists m, model st' = Some m).
  { unfold step in H. destruct (predict w request st) as [r1 st1] eqn:E.
    inversion H; subst. now apply predict_Ret in E. }
  destruct Hs as [m Hm].
  assert (Hl : loaded (snd (run evs st')) = true).
  { apply loaded_true. exists m. now apply run_keeps_model. }
  now rewrite Hl.
Qed.

End WithRuntime.

(** C5: severity and recommendations are functions of the probability alone.
    Take any two answers of the handler, in any two runtimes, worlds and
    states (different models, different earlier requests, different images):
    when the two probabilities are the same, so are the severity labels and
    the recommendation lists, and they are what [get_severity] and
    [get_recommendations] give on that probability; both are defined on
    every float, NaN included. *)
Theorem severity_and_recommendations_depend_on_probability_only
  (R1 R2 : Runtime) (w1 : World (R := R1)) (w2 : World (R := R2))
  (request1 request2 : ImageRequest)
  (st1 st1' : state (R := R1)) (st2 st2' : state (R := R2))
  (r1 r2 : PredictionResult) :
  (predict w1 request1 st1 = (Ret r1, st1') ->
   predict w2 request2 st2 = (Ret r2, st2') ->
   confidence r1 = confidence r2 ->
   severity (details r1) = severity (details r2)
   /\ recommendations r1 = recommendations r2
   /\ severity (details r1) = Main.get_severity (confidence r1)
   /\ recommendations r1
      = Main.get_recommendations (confidence r1) (Main.get_severity (confidence r1)))
  /\ (forall p : float,
        exists (s : option string) (l : list string),
          Main.get_severity p = s
          /\ Main.get_recommendations p s = l
          /\ In s [None; Some "Mild"; Some "Moderate"; Some "Severe"]
          /\ In l [ Spec.normal_list; Spec.severe_urgent ++ Spec.base_list;
                    Spec.moderate_urgent ++ Spec.base_list; Spec.mild_list ])
  /\ Main.get_severity PrimFloat.nan = None
  /\ Main.get_recommendations PrimFloat.nan None = Spec.normal_list.
Proof.
  split.
  { intros H1 H2 Hc.
    apply predict_Ret in H1, H2. destruct H1 as [E1 _], H2 as [E2 _].
    assert (Hs : forall (R : Runtime) p,
               severity (details (Spec.assemble (format_1f (Runtime := R)) p))
               = Main.get_severity p).
    { intros R p. cbn. symmetry. apply get_severity_first_match. }
    assert (Hr : forall (R : Runtime) p,
               recommendations (Spec.assemble (format_1f (Runtime := R)) p)
               = Main.get_recommendations p (Main.get_severity p)).
    { intros R p. symmetry. apply recommendations_code. }
    remember (confidence r1) as p1 eqn:P1. remember (confidence r2) as p2 eqn:P2.
    clear P1 P2. subst r1 r2 p2.
    rewrite !Hs, !Hr. repeat split. }
  split.
  { intros p. exists (Main.get_severity p), (Main.get_recommendations p (Main.get_severity p)).
    split; [reflexivity|]. split; [reflexivity|]. split.
    - destruct (get_severity_cases p) as [E|[E|[E|E]]]; rewrite E; cbn; tauto.
    - apply get_recommendations_cases. }
  split; reflexivity.
Qed.

(** A request served in the small runtime, by a model answering 0.5. *)
Lemma predict_prediction_field_witness :
  (exists r st',
     predict (R := Toy.runtime) (Toy.world_with 0.5) {| image := Toy.data_url |} initial
     = (Ret r, st')
     /\ pneumoniaProbability r = 0.5%float /\ prediction r = "Normal")
  /\ (exists r st',
        predict (R := Toy.runtime) (Toy.world_with 0.95) {| image := Toy.data_url |}
          initial
        = (Ret r, st')
        /\ pneumoniaProbability r = 0.95%float /\ prediction r = "Pneumonia").
Proof.
  split.
  - destruct (proj1 (predict_prediction_field (R := Toy.runtime)
                       (Toy.world_with 0.5) {| image := Toy.data_url |} initial)
                0.5%float
                (expand_dims0
                   (map (map (map div255)) (repeat (repeat (repeat 105%Z 3) 224) 224)))
                [[0.5%float]] [0.5%float] 0.5%float
                eq_refl eq_refl eq_refl eq_refl eq_refl)
      as (r & st' & H & Hp & _ & _ & Hn & _).
    exists r, st'. split; [exact H|]. split; [exact Hp|].
    apply Hn. reflexivity.
  - destruct (proj1 (predict_prediction_field (R := Toy.runtime)
                       (Toy.world_with 0.95) {| image := Toy.data_url |} initial)
                0.95%float
                (expand_dims0
                   (map (map (map div255)) (repeat (repeat (repeat 105%Z 3) 224) 224)))
                [[0.95%float]] [0.95%float] 0.95%float
                eq_refl eq_refl eq_refl eq_refl eq_refl)
      as (r & st' & H & Hp & _ & Hy & _).
    exists r, st'. split; [exact H|]. split; [exact Hp|].
    apply Hy. reflexivity.
Defined.

(** A session in the small runtime: /health, a request while the model file
    is missing, one after it appeared, /health, a request with a text that
    does not decode. *)
Example toy_session :
  fst (run (R := Toy.runtime)
         [ (Toy.world_without, GetHealth);
           (Toy.world_without, PostPredict {| image := Toy.data_url |});
           (Toy.world_with 0.95, PostPredict {| image := Toy.data_url |});
           (Toy.world_without, GetHealth);
           (Toy.world_without, PostPredict {| image := "!!" |}) ]
         (boot Toy.world_without))
  = [ HealthReply (Ret {| status := "healthy"; model_loaded := false |});
      PredictReply
        (Raise (HTTPException 500
                  "Model not loaded: Model file not found at pneumonia_detection_model.h5"));
      PredictReply (Ret (Spec.assemble (fun _ => "?") 0.95));
      HealthReply (Ret {| status := "healthy"; model_loaded := true |});
      PredictReply (Raise (HTTPException 500 "Incorrect padding")) ].
Proof. vm_compute. reflexivity. Qed.

End HandlerFacts.

(** ** The image normalizer *)

Module NormalizerFacts.

Import PyFloat Py Api BigStep.

(** Every uint8 value divided by 255.0 lands in [0,1]: the 256 cases. *)
Lemma div255_table :
  forallb (fun n => in_unit (div255 (Z.of_nat n))) (seq 0 256) = true.
Proof. vm_compute. reflexivity. Qed.

Lemma div255_unit (v : Z) : is_uint8 v = true -> in_unit (div255 v) = true.
Proof.
  unfold is_uint8. intros H. apply andb_prop in H. destruct H as [H0 H1].
  apply Z.leb_le in H0. apply Z.ltb_lt in H1.
  pose proof div255_table as T. rewrite forallb_forall in T.
  rewrite <- (Z2Nat.id v H0). apply T. apply in_seq. lia.
Qed.

(** The quotient of a byte by 255.0, times 255.0, is the byte again. *)
Lemma quotient_times_255_table :
  forallb (fun n =>
             ((PrimFloat.of_uint63 (Uint63.of_Z (Z.of_nat n)) / 255.0) * 255.0
              =? PrimFloat.of_uint63 (Uint63.of_Z (Z.of_nat n)))%float)
    (seq 0 256) = true.
Proof. vm_compute. reflexivity. Qed.

Lemma quotient_times_255 (v : Z) :
  (0 <= v < 256)%Z ->
  ((PrimFloat.of_uint63 (Uint63.of_Z v) / 255.0) * 255.0
   =? PrimFloat.of_uint63 (Uint63.of_Z v))%float = true.
Proof.
  intros [H0 H1]. pose proof quotient_times_255_table as T.
  rewrite forallb_forall in T. rewrite <- (Z2Nat.id v H0).
  apply (T (Z.to_nat v)). apply in_seq. lia.
Qed.

(** A larger byte has a larger quotient: the 256 by 256 pairs. *)
Lemma quotient_increasing_table :
  forallb (fun n =>
             forallb (fun m =>
                        implb (Nat.ltb n m)
                          (PrimFloat.of_uint63 (Uint63.of_Z (Z.of_nat n)) / 255.0
                           <? PrimFloat.of_uint63 (Uint63.of_Z (Z.of_nat m)) / 255.0)%float)
               (seq 0 256))
    (seq 0 256) = true.
Proof. vm_compute. reflexivity. Qed.

Lemma quotient_increasing (v w : Z) :
  (0 <= v)%Z -> (v < w)%Z -> (w < 256)%Z ->
  (PrimFloat.of_uint63 (Uint63.of_Z v) / 255.0
   <? PrimFloat.of_uint63 (Uint63.of_Z w) / 255.0)%float = true.
Proof.
  intros H0 H1 H2. pose proof quotient_increasing_table as T.
  rewrite forallb_forall in T.
  assert (Hv : In (Z.to_nat v) (seq 0 256)) by (apply in_seq; lia).
  specialize (T _ Hv). rewrite forallb_forall in T.
  assert (Hw : In (Z.to_nat w) (seq 0 256)) by (apply in_seq; lia).
  specialize (T _ Hw).
  assert (L : Nat.ltb (Z.to_nat v) (Z.to_nat w) = true) by (apply Nat.ltb_lt; lia).
  rewrite L in T. cbn [implb] in T.
  rewrite !Z2Nat.id in T by lia. exact T.
Qed.

Lemma forallb_map {A B} (f : A -> B) (P : B -> bool) (l : list A) :
  forallb P (map f l) = forallb (fun x => P (f x)) l.
Proof.
  induction l as [|x l IH]; [reflexivity|]. cbn. now rewrite IH.
Qed.

Lemma forallb_impl {A} (P Q : A -> bool) (l : list A) :
  (forall x, P x = true -> Q x = true) -> forallb P l = true -> forallb Q l = true.
Proof.
  intros H. rewrite !forallb_forall. auto.
Qed.

Lemma forallb_ext' {A} (P Q : A -> bool) (l : list A) :
  (forall x, P x = Q x) -> forallb P l = forallb Q l.
Proof.
  intros H. induction l as [|x l IH]; [reflexivity|]. cbn. now rewrite H, IH.
Qed.

(** Mapping over the entries keeps the shape. *)
Lemma shape3_map {A B} (f : A -> B) (h w c : nat) (a : list (list (list A))) :
  shape3 h w c (map (map (map f)) a) = shape3 h w c a.
Proof.
  unfold shape3. rewrite length_map, forallb_map. f_equal.
  apply forallb_ext'. intros row. rewrite length_map, forallb_map. f_equal.
  apply forallb_ext'. intros px. now rewrite length_map.
Qed.

Lemma all3_map {A B} (f : A -> B) (P : A -> bool) (Q : B -> bool)
  (a : list (list (list A))) :
  (forall x, P x = true -> Q (f x) = true) ->
  all3 P a = true -> all3 Q (map (map (map f)) a) = true.
Proof.
  intros H. unfold all3. rewrite forallb_map.
  apply forallb_impl. intros row. rewrite forallb_map.
  apply forallb_impl. intros px. rewrite forallb_map.
  apply forallb_impl. exact H.
Qed.

(** *** The data-URL header *)

Lemma append_nil_r (s : string) : (s ++ "")%string = s.
Proof. induction s as [|c s IH]; [reflexivity|]. cbn. now rewrite IH. Qed.

Lemma append_assoc (a b c : string) : ((a ++ b) ++ c)%string = (a ++ b ++ c)%string.
Proof. induction a as [|x a IH]; [reflexivity|]. cbn. now rewrite IH. Qed.

Lemma split_from_not_nil (sep s : string) (skip : nat) (cur : string) :
  1 <= length (split_from sep s skip cur).
Proof.
  revert skip cur. induction s as [|ch s IH]; intros skip cur;
    cbn [split_from]; [cbn; lia|].
  destruct skip; [|apply IH].
  destruct (String.prefix sep (String ch s)); [cbn [List.length]; lia|apply IH].
Qed.

(** After a separator was met, its remaining characters are passed over. *)
Lemma split_from_skip (sep x rest cur : string) :
  split_from sep (x ++ rest) (String.length x) cur = split_from sep rest 0 cur.
Proof.
  induction x as [|ch x IH]; [reflexivity|]. cbn. exact IH.
Qed.

(** Without the separator there is one segment. *)
Lemma split_from_none (sep s cur : string) :
  contains sep s = false -> split_from sep s 0 cur = [(cur ++ s)%string].
Proof.
  revert cur. induction s as [|ch s IH]; intros cur H; cbn.
  - now rewrite append_nil_r.
  - cbn in H. apply orb_false_elim in H. destruct H as [Hp Hc].
    cbn in Hp. rewrite Hp, (IH _ Hc), append_assoc. reflexivity.
Qed.

(** With the separator, [split] has a second segment: the [[1]] of
    [preprocess_image] does not raise. *)
Lemma split_second (s cur : string) :
  contains "base64," s = true -> 2 <= length (split_from "base64," s 0 cur).
Proof.
  revert cur. induction s as [|ch s IH]; intros cur H; [discriminate|].
  cbn [split_from]. cbn [contains] in H.
  destruct (String.prefix "base64," (String ch s)) eqn:Hp.
  - pose proof (split_from_not_nil "base64," s
                  (String.length "base64," - 1) "") as L.
    cbn [List.length]. lia.
  - apply IH. exact H.
Qed.

Lemma payload_returns (image_data : string) :
  exists s, payload image_data = Ret s.
Proof.
  unfold payload. destruct (contains "base64," image_data) eqn:H; [|eauto].
  pose proof (split_second image_data "" H) as L.
  unfold split, getitem.
  destruct (split_from "base64," image_data 0 "") as [|a [|b l]]; cbn in L; try lia.
  cbn. eauto.
Qed.

(** A text that starts with the separator has its comma at index 6. *)
Lemma prefix_comma (x : string) :
  String.prefix "base64," x = true -> String.get 6 x = Some ","%char.
Proof.
  intros H.
  destruct x as [|x1 [|x2 [|x3 [|x4 [|x5 [|x6 [|x7 x]]]]]]];
    cbn [String.prefix] in H;
    repeat match type of H with
           | context [ascii_dec ?a ?b] => destruct (ascii_dec a b)
           end;
    try discriminate H.
  subst. reflexivity.
Qed.

Lemma lacks_cons (c ch : ascii) (s : string) :
  lacks c (String ch s) = true -> ch <> c /\ lacks c s = true.
Proof.
  cbn. intros H. apply andb_prop in H. destruct H as [H1 H2]. split; [|exact H2].
  intros ->. now rewrite Ascii.eqb_refl in H1.
Qed.

(** No separator starts inside a header that has no comma. *)
Lemma header_no_prefix (ch : ascii) (b rest : string) :
  lacks "," (String ch b) = true ->
  String.prefix "base64," (String ch b ++ "base64," ++ rest) = false.
Proof.
  intros H.
  destruct (String.prefix "base64," (String ch b ++ "base64," ++ rest)) eqn:E;
    [|reflexivity].
  apply prefix_comma in E. exfalso. revert E.
  apply lacks_cons in H. destruct H as [_ H].
  destruct b as [|c2 b]; [cbn; discriminate|].
  apply lacks_cons in H. destruct H as [_ H].
  destruct b as [|c3 b]; [cbn; discriminate|].
  apply lacks_cons in H. destruct H as [_ H].
  destruct b as [|c4 b]; [cbn; discriminate|].
  apply lacks_cons in H. destruct H as [_ H].
  destruct b as [|c5 b]; [cbn; discriminate|].
  apply lacks_cons in H. destruct H as [_ H].
  destruct b as [|c6 b]; [cbn; discriminate|].
  apply lacks_cons in H. destruct H as [_ H].
  destruct b as [|c7 b]; [cbn; discriminate|].
  apply lacks_cons in H. destruct H as [N _].
  cbn. congruence.
Qed.

Lemma prefix_append (sep rest : string) : String.prefix sep (sep ++ rest) = true.
Proof.
  induction sep as [|c sep IH]; [destruct rest; reflexivity|].
  cbn [append String.prefix]. destruct (ascii_dec c c); [exact IH|congruence].
Qed.

(** A separator met at the start closes the segment being read. *)
Lemma split_from_separator (c : ascii) (sep' rest cur : string) :
  split_from (String c sep') (String c sep' ++ rest) 0 cur
  = cur :: split_from (String c sep') rest 0 "".
Proof.
  change (String c sep' ++ rest)%string with (String c (sep' ++ rest)).
  cbn [split_from].
  change (String c (sep' ++ rest)) with (String c sep' ++ rest)%string.
  rewrite prefix_append. f_equal.
  cbn [String.length]. rewrite Nat.sub_1_r. cbn [Nat.pred].
  apply split_from_skip.
Qed.

Lemma split_header (header rest cur : string) :
  lacks "," header = true ->
  split_from "base64," (header ++ "base64," ++ rest) 0 cur
  = (cur ++ header)%string :: split_from "base64," rest 0 "".
Proof.
  revert cur. induction header as [|ch b IH]; intros cur H.
  - rewrite append_nil_r.
    change ("" ++ "base64," ++ rest)%string with ("base64," ++ rest)%string.
    apply split_from_separator.
  - pose proof (header_no_prefix ch b rest H) as Hp.
    change (String ch b ++ "base64," ++ rest)%string
      with (String ch (b ++ "base64," ++ rest)) in *.
    cbn [split_from]. rewrite Hp.
    apply lacks_cons in H. destruct H as [_ H].
    rewrite (IH _ H), append_assoc. reflexivity.
Qed.

Lemma contains_header (header rest : string) :
  contains "base64," (header ++ "base64," ++ rest) = true.
Proof.
  induction header as [|ch b IH].
  { change ("" ++ "base64," ++ rest)%string with (String "b" ("ase64," ++ rest)).
    cbn [contains].
    change (String "b" ("ase64," ++ rest)) with ("base64," ++ rest)%string.
    now rewrite prefix_append. }
  change (String ch b ++ "base64," ++ rest)%string
    with (String ch (b ++ "base64," ++ rest)).
  cbn [contains]. rewrite IH. apply orb_true_r.
Qed.

(** The header of a data URL is stripped: with no comma before the
    separator and no separator after it, the decoder gets what follows. *)
Lemma payload_data_url (header data : string) :
  lacks "," header = true -> contains "base64," data = false ->
  payload (header ++ "base64," ++ data) = Ret data.
Proof.
  intros Hh Hd. unfold payload, split.
  rewrite contains_header, (split_header _ _ _ Hh), (split_from_none _ _ _ Hd).
  reflexivity.
Qed.

(** Without the separator the text goes to the decoder as it is. *)
Lemma payload_plain (image_data : string) :
  contains "base64," image_data = false -> payload image_data = Ret image_data.
Proof. unfold payload. now intros ->. Qed.

Section WithRuntime.

Context {R : Runtime} {ok : RuntimeOk R}.

(** The image handed to numpy is RGB and 224 by 224. *)
Lemma resized_RGB (img0 img1 img2 : Image) :
  (if negb (String.eqb (Image_mode img0) "RGB")
   then Image_convert img0 "RGB" else Ret img0) = Ret img1 ->
  Image_resize img1 (224, 224) = Ret img2 ->
  Image_mode img2 = "RGB" /\ Image_size img2 = (224, 224).
Proof.
  intros Hc Hr. apply resize_ok in Hr. destruct Hr as [Hs Hm].
  split; [|exact Hs]. rewrite Hm.
  destruct (String.eqb (Image_mode img0) "RGB") eqn:E; cbn in Hc.
  - inversion Hc; subst. now apply String.eqb_eq.
  - now apply convert_ok in Hc.
Qed.

Lemma normalized_shape (img : Image) (a : ndarray_u8) :
  Image_mode img = "RGB" -> Image_size img = (224, 224) -> np_array img = Ret a ->
  let t := expand_dims0 (map (map (map div255)) a) in
  shape4 1 224 224 3 t = true /\ all4 in_unit t = true.
Proof.
  intros Hm Hs Ha. destruct (array_ok _ _ Hm Ha) as [Hshape Hu8].
  rewrite Hs in Hshape. cbn [fst snd] in Hshape.
  cbv zeta. unfold expand_dims0, shape4, all4. cbn [length forallb Nat.eqb].
  rewrite shape3_map, Hshape, (all3_map div255 is_uint8 in_unit a div255_unit Hu8).
  split; reflexivity.
Qed.

(** The steps of [preprocess_image], read off a result. *)
Lemma preprocess_image_Ret (image_data : string) (t : ndarray4) :
  preprocess_image image_data = Ret t ->
  exists s raw img0 img1 img2 a,
    payload image_data = Ret s
    /\ b64decode s = Ret raw
    /\ Image_open raw = Ret img0
    /\ (if negb (String.eqb (Image_mode img0) "RGB")
        then Image_convert img0 "RGB" else Ret img0) = Ret img1
    /\ Image_resize img1 (224, 224) = Ret img2
    /\ np_array img2 = Ret a
    /\ t = expand_dims0 (map (map (map div255)) a).
Proof.
  unfold preprocess_image. fold (payload image_data).
  destruct (payload image_data) as [s|] eqn:E1; [cbn|discriminate].
  destruct (b64decode s) as [raw|] eqn:E2; [cbn|discriminate].
  destruct (Image_open raw) as [img0|] eqn:E3; [cbn|discriminate].
  destruct (if negb (String.eqb (Image_mode img0) "RGB")
            then Image_convert img0 "RGB" else Ret img0) as [img1|] eqn:E4;
    [cbn|discriminate].
  destruct (Image_resize img1 (224, 224)) as [img2|] eqn:E5; [cbn|discriminate].
  destruct (np_array img2) as [a|] eqn:E6; [cbn|discriminate].
  intros H. inversion H. exists s, raw, img0, img1, img2, a. repeat split; trivial.
Qed.

(** The entry at [i][j][k] of an array, mapped. *)
Lemma map3_nth_error {A B} (f : A -> B) (a : list (list (list A)))
  (i j k : nat) (row : list (list A)) (px : list A) (v : A) :
  nth_error a i = Some row -> nth_error row j = Some px -> nth_error px k = Some v ->
  exists row' px',
    nth_error (map (map (map f)) a) i = Some row'
    /\ nth_error row' j = Some px'
    /\ nth_error px' k = Some (f v).
Proof.
  intros Hi Hj Hk. exists (map (map f) row), (map f px).
  split; [now apply map_nth_error|].
  split; now apply map_nth_error.
Qed.

(** C4: for an image that decodes, the normalizer strips the data-URL
    header, decodes the base64 text, opens the image, converts it to RGB when
    its mode is another, resizes it to 224 by 224, divides every channel value
    by 255.0 and puts one batch axis in front, in this order.  The tensor it
    returns is the one array of the resized image with every entry [v]
    replaced by the binary64 quotient [v / 255.0], entry by entry at the same
    indices; it has shape (1,224,224,3) and all its values in [0,1], as has
    every tensor the normalizer returns.  The quotient sends 0 to 0 and 255 to
    1, grows with the byte, and times 255.0 gives the byte back.  The text
    decoded is what follows "base64," in a data URL, and the whole text when
    there is no "base64,". *)
Theorem preprocess_image_normalizes :
  (forall (image_data s : string) (raw : bytes) (img0 img1 img2 : Image)
          (a : ndarray_u8),
     payload image_data = Ret s ->
     b64decode s = Ret raw ->
     Image_open raw = Ret img0 ->
     (if negb (String.eqb (Image_mode img0) "RGB")
      then Image_convert img0 "RGB" else Ret img0) = Ret img1 ->
     Image_resize img1 (224, 224) = Ret img2 ->
     np_array img2 = Ret a ->
     let t :=
       [ map (map (map (fun v : Z =>
                          (PrimFloat.of_uint63 (Uint63.of_Z v) / 255.0)%float))) a ] in
     preprocess_image image_data = Ret t
     /\ shape4 1 224 224 3 t = true
     /\ all4 in_unit t = true
     /\ Image_mode img2 = "RGB" /\ Image_size img2 = (224, 224)
     /\ (forall i j k row px v,
           nth_error a i = Some row -> nth_error row j = Some px ->
           nth_error px k = Some v ->
           exists batch row' px',
             nth_error t 0 = Some batch /\ nth_error batch i = Some row'
             /\ nth_error row' j = Some px'
             /\ nth_error px' k
                = Some (PrimFloat.of_uint63 (Uint63.of_Z v) / 255.0)%float))
  /\ (forall (image_data : string) (t : ndarray4),
        preprocess_image image_data = Ret t ->
        shape4 1 224 224 3 t = true /\ all4 in_unit t = true
        /\ exists (img2 : Image) (a : ndarray_u8),
             np_array img2 = Ret a
             /\ Image_mode img2 = "RGB" /\ Image_size img2 = (224, 224)
             /\ t = [ map (map (map (fun v : Z =>
                         (PrimFloat.of_uint63 (Uint63.of_Z v) / 255.0)%float))) a ])
  /\ (forall v : Z, (0 <= v < 256)%Z ->
        ((PrimFloat.of_uint63 (Uint63.of_Z v) / 255.0) * 255.0
         =? PrimFloat.of_uint63 (Uint63.of_Z v))%float = true)
  /\ (forall v w : Z, (0 <= v)%Z -> (v < w)%Z -> (w < 256)%Z ->
        (PrimFloat.of_uint63 (Uint63.of_Z v) / 255.0
         <? PrimFloat.of_uint63 (Uint63.of_Z w) / 255.0)%float = true)
  /\ (PrimFloat.of_uint63 (Uint63.of_Z 0) / 255.0 =? 0)%float = true
  /\ (PrimFloat.of_uint63 (Uint63.of_Z 255) / 255.0 =? 1)%float = true
  /\ (forall header data : string,
        lacks "," header = true -> contains "base64," data = false ->
        payload (header ++ "base64," ++ data) = Ret data)
  /\ (forall image_data : string,
        contains "base64," image_data = false ->
        payload image_data = Ret image_data).
Proof.
  split; [|split; [|split; [exact quotient_times_255|
    split; [exact quotient_increasing|
    split; [reflexivity|
    split; [reflexivity|
    split; [exact payload_data_url|exact payload_plain]]]]]]].
  - intros image_data s raw img0 img1 img2 a H1 H2 H3 H4 H5 H6. cbv zeta.
    destruct (resized_RGB _ _ _ H4 H5) as [Hm Hs].
    destruct (normalized_shape _ _ Hm Hs H6) as [Hshape Hunit].
    split.
    { unfold preprocess_image. fold (payload image_data).
      rewrite H1. cbn. rewrite H2. cbn. rewrite H3. cbn. rewrite H4. cbn.
      rewrite H5. cbn. rewrite H6. reflexivity. }
    split; [exact Hshape|]. split; [exact Hunit|].
    split; [exact Hm|]. split; [exact Hs|].
    intros i j k row px v Hi Hj Hk.
    destruct (map3_nth_error
                (fun v : Z => (PrimFloat.of_uint63 (Uint63.of_Z v) / 255.0)%float)
                a i j k row px v Hi Hj Hk) as (row' & px' & G1 & G2 & G3).
    eexists _, row', px'. split; [reflexivity|]. repeat split; assumption.
  - intros image_data t H.
    destruct (preprocess_image_Ret _ _ H)
      as (s & raw & img0 & img1 & img2 & a & H1 & H2 & H3 & H4 & H5 & H6 & ->).
    destruct (resized_RGB _ _ _ H4 H5) as [Hm Hs].
    destruct (normalized_shape _ _ Hm Hs H6) as [Hshape Hunit].
    split; [exact Hshape|]. split; [exact Hunit|].
    exists img2, a. repeat split; assumption.
Qed.

End WithRuntime.

(** *** The small runtime keeps the libraries' promises *)

Lemma forallb_repeat {A} (P : A -> bool) (x : A) (n : nat) :
  P x = true -> forallb P (repeat x n) = true.
Proof.
  intros H. induction n as [|n IH]; [reflexivity|]. cbn. now rewrite H, IH.
Qed.

Lemma Toy_array_RGB (img : Toy.image) :
  Toy.mode img = "RGB" ->
  Toy.array img
  = Ret (repeat (repeat (repeat (Toy.colour img mod 256)%Z 3) (fst (Toy.size img)))
           (snd (Toy.size img))).
Proof. unfold Toy.array. now intros ->. Qed.

#[export] Instance Toy_ok : RuntimeOk Toy.runtime.
Proof.
  split.
  - intros img m img' H. cbn in *. inversion H; subst. split; reflexivity.
  - intros img sz img' H. cbn in *. inversion H; subst. split; reflexivity.
  - intros img a Hm Ha.
    change (Toy.mode img = "RGB") in Hm.
    change (Toy.array img = Ret a) in Ha.
    rewrite (Toy_array_RGB _ Hm) in Ha. injection Ha as <-.
    change (Image_size img) with (Toy.size img). split.
    + unfold shape3. rewrite repeat_length, Nat.eqb_refl. cbn [andb].
      apply forallb_repeat. rewrite repeat_length, Nat.eqb_refl. cbn [andb].
      apply forallb_repeat. reflexivity.
    + unfold all3. do 2 apply forallb_repeat.
      apply (forallb_repeat is_uint8 _ 3).
      unfold is_uint8.
      pose proof (Z.mod_pos_bound (Toy.colour img) 256 eq_refl) as [H0 H1].
      apply andb_true_intro. split; [now apply Z.leb_le|now apply Z.ltb_lt].
Qed.

(** The normalizer on a data URL, in the small runtime. *)
Lemma preprocess_image_normalizes_witness :
  let t :=
    [ map (map (map (fun v : Z =>
                       (PrimFloat.of_uint63 (Uint63.of_Z v) / 255.0)%float)))
        (repeat (repeat (repeat 105%Z 3) 224) 224) ] in
  preprocess_image (R := Toy.runtime) Toy.data_url = Ret t
  /\ shape4 1 224 224 3 t = true
  /\ all4 in_unit t = true.
Proof.
  pose proof (proj1 (preprocess_image_normalizes (R := Toy.runtime) (ok := Toy_ok))
                Toy.data_url "iVBORw0KGgo=" "iVBORw0KGgo="
                {| Toy.mode := "L"; Toy.size := (2, 3); Toy.colour := 105 |}
                {| Toy.mode := "RGB"; Toy.size := (2, 3); Toy.colour := 105 |}
                {| Toy.mode := "RGB"; Toy.size := (224, 224); Toy.colour := 105 |}
                (repeat (repeat (repeat 105%Z 3) 224) 224)
                eq_refl eq_refl eq_refl eq_refl eq_refl eq_refl) as P.
  cbv zeta in P. cbv zeta.
  split; [exact (proj1 P)|].
  split; [exact (proj1 (proj2 P))|exact (proj1 (proj2 (proj2 P)))].
Defined.

End NormalizerFacts.

(** ** The command-line predictor *)

Module CliFacts.

Import Py Cli.

Lemma bool_of_int_of_bool (b : bool) : Py.bool_of_int (Py.int_of_bool b) = b.
Proof. destruct b; reflexivity. Qed.

Section WithRuntime.

Context {R : Runtime}.

(** What a run writes and how it exits, by what the steps come to. *)
Lemma run_eq :
  fst run =
    match class1_probability with
    | Ret p => ([dumps (result_object p)], 0%Z)
    | Raise (Exception message) => ([dumps (error_object message)], 1%Z)
    | Raise (SystemExit code) => ([], (code mod 256)%Z)
    | Raise KeyboardInterrupt => ([], (-2)%Z)
    end.
Proof.
  unfold run, main, class1_probability, try_except, bindM, log, lift, print,
    sys_exit, raise, result_object, error_object.
  cbn.
  destruct (open_ "ensemble_model.pkl" "rb") as [f|[m|c|]]; cbn; try reflexivity.
  destruct (pickle_load f) as [model|[m|c|]]; cbn; try reflexivity.
  destruct (open_ "temp_input.json" "r") as [g|[m|c|]]; cbn; try reflexivity.
  destruct (json_load g) as [input_data|[m|c|]]; cbn; try reflexivity.
  destruct (np_array_reshape_row input_data) as [input_array|[m|c|]]; cbn;
    try reflexivity.
  destruct (predict_proba model input_array) as [proba|[m|c|]]; cbn;
    try reflexivity.
  destruct (Py.getitem proba 0) as [row|[m|c|]]; cbn; try reflexivity.
  destruct (Py.getitem row 1) as [p|[m|c|]]; cbn; try reflexivity.
  now rewrite bool_of_int_of_bool.
Qed.

(** No call is made twice. *)
Lemma run_calls : NoDup (snd run).
Proof.
  unfold run, main, try_except, bindM, log, lift, print, sys_exit, raise. cbn.
  destruct (open_ "ensemble_model.pkl" "rb") as [f|[m|c|]]; cbn;
    try (repeat constructor; cbn; intuition discriminate).
  destruct (pickle_load f) as [model|[m|c|]]; cbn;
    try (repeat constructor; cbn; intuition discriminate).
  destruct (open_ "temp_input.json" "r") as [g|[m|c|]]; cbn;
    try (repeat constructor; cbn; intuition discriminate).
  destruct (json_load g) as [input_data|[m|c|]]; cbn;
    try (repeat constructor; cbn; intuition discriminate).
  destruct (np_array_reshape_row input_data) as [input_array|[m|c|]]; cbn;
    try (repeat constructor; cbn; intuition discriminate).
  destruct (predict_proba model input_array) as [proba|[m|c|]]; cbn;
    try (repeat constructor; cbn; intuition discriminate).
  destruct (Py.getitem proba 0) as [row|[m|c|]]; cbn;
    try (repeat constructor; cbn; intuition discriminate).
  destruct (Py.getitem row 1) as [p|[m|c|]]; cbn;
    repeat constructor; cbn; intuition discriminate.
Qed.

Lemma class1_probability_open_model (e : exn) :
  open_ "ensemble_model.pkl" "rb" = Raise e -> class1_probability = Raise e.
Proof. unfold class1_probability. now intros ->. Qed.

Lemma class1_probability_open_input (f : File) (model : Model) (e : exn) :
  open_ "ensemble_model.pkl" "rb" = Ret f -> pickle_load f = Ret model ->
  open_ "temp_input.json" "r" = Raise e -> class1_probability = Raise e.
Proof.
  unfold class1_probability. intros -> H1 H2. cbn. rewrite H1. cbn. now rewrite H2.
Qed.

Lemma class1_probability_json (f g : File) (model : Model) (e : exn) :
  open_ "ensemble_model.pkl" "rb" = Ret f -> pickle_load f = Ret model ->
  open_ "temp_input.json" "r" = Ret g -> json_load g = Raise e ->
  class1_probability = Raise e.
Proof.
  unfold class1_probability. intros -> H1 H2 H3. cbn. rewrite H1. cbn.
  rewrite H2. cbn. now rewrite H3.
Qed.

Lemma class1_probability_predict (f g : File) (model : Model) (input_data : json)
  (input_array : Array) (e : exn) :
  open_ "ensemble_model.pkl" "rb" = Ret f -> pickle_load f = Ret model ->
  open_ "temp_input.json" "r" = Ret g -> json_load g = Ret input_data ->
  np_array_reshape_row input_data = Ret input_array ->
  predict_proba model input_array = Raise e ->
  class1_probability = Raise e.
Proof.
  unfold class1_probability. intros -> H1 H2 H3 H4 H5. cbn. rewrite H1. cbn.
  rewrite H2. cbn. rewrite H3. cbn. rewrite H4. cbn. now rewrite H5.
Qed.

Lemma class1_probability_Ret (f g : File) (model : Model) (input_data : json)
  (input_array : Array) (proba : list (list float)) (row : list float) (p : float) :
  open_ "ensemble_model.pkl" "rb" = Ret f -> pickle_load f = Ret model ->
  open_ "temp_input.json" "r" = Ret g -> json_load g = Ret input_data ->
  np_array_reshape_row input_data = Ret input_array ->
  predict_proba model input_array = Ret proba ->
  Py.getitem proba 0 = Ret row -> Py.getitem row 1 = Ret p ->
  class1_probability = Ret p.
Proof.
  unfold class1_probability.
  intros -> H1 H2 H3 H4 H5 H6 H7. cbn. rewrite H1. cbn.
  rewrite H2. cbn. rewrite H3. cbn. rewrite H4. cbn. rewrite H5. cbn.
  rewrite H6. cbn. now rewrite H7.
Qed.

(** C9: when every step returns, the script writes one JSON object with the
    class-1 probability and the boolean [probability > 0.5] and exits with
    status 0; when a step raises an [Exception] (model file missing, input
    file missing or not JSON, prediction failing) it writes one JSON error
    object with the message and exits with status 1.  No call is made
    twice. *)
Theorem cli_reports_result_or_error :
  (forall p, class1_probability = Ret p ->
     fst run = ([dumps (result_object p)], 0%Z))
  /\ (forall message, class1_probability = Raise (Exception message) ->
        fst run = ([dumps (error_object message)], 1%Z))
  /\ (forall message, open_ "ensemble_model.pkl" "rb" = Raise (Exception message) ->
        fst run = ([dumps (error_object message)], 1%Z))
  /\ (forall f model message,
        open_ "ensemble_model.pkl" "rb" = Ret f -> pickle_load f = Ret model ->
        open_ "temp_input.json" "r" = Raise (Exception message) ->
        fst run = ([dumps (error_object message)], 1%Z))
  /\ (forall f g model message,
        open_ "ensemble_model.pkl" "rb" = Ret f -> pickle_load f = Ret model ->
        open_ "temp_input.json" "r" = Ret g ->
        json_load g = Raise (Exception message) ->
        fst run = ([dumps (error_object message)], 1%Z))
  /\ (forall f g model input_data input_array message,
        open_ "ensemble_model.pkl" "rb" = Ret f -> pickle_load f = Ret model ->
        open_ "temp_input.json" "r" = Ret g -> json_load g = Ret input_data ->
        np_array_reshape_row input_data = Ret input_array ->
        predict_proba model input_array = Raise (Exception message) ->
        fst run = ([dumps (error_object message)], 1%Z))
  /\ (forall f g model input_data input_array proba row p,
        open_ "ensemble_model.pkl" "rb" = Ret f -> pickle_load f = Ret model ->
        open_ "temp_input.json" "r" = Ret g -> json_load g = Ret input_data ->
        np_array_reshape_row input_data = Ret input_array ->
        predict_proba model input_array = Ret proba ->
        Py.getitem proba 0 = Ret row -> Py.getitem row 1 = Ret p ->
        fst run = ([dumps (result_object p)], 0%Z))
  /\ NoDup (snd run).
Proof.
  split. { intros p H. now rewrite run_eq, H. }
  split. { intros message H. now rewrite run_eq, H. }
  split.
  { intros message H. now rewrite run_eq, (class1_probability_open_model _ H). }
  split.
  { intros f model message H1 H2 H3.
    now rewrite run_eq, (class1_probability_open_input _ _ _ H1 H2 H3). }
  split.
  { intros f g model message H1 H2 H3 H4.
    now rewrite run_eq, (class1_probability_json _ _ _ _ H1 H2 H3 H4). }
  split.
  { intros f g model input_data input_array message H1 H2 H3 H4 H5 H6.
    now rewrite run_eq, (class1_probability_predict _ _ _ _ _ _ H1 H2 H3 H4 H5 H6). }
  split.
  { intros f g model input_data input_array proba row p H1 H2 H3 H4 H5 H6 H7 H8.
    now rewrite run_eq,
      (class1_probability_Ret _ _ _ _ _ _ _ _ H1 H2 H3 H4 H5 H6 H7 H8). }
  apply run_calls.
Qed.

End WithRuntime.

(** Four runs in the small runtime: all well; no model file; no input file;
    a model answering one class only. *)
Example toy_runs :
  fst (run (R := Toy.runtime (fun _ => true) [[0.25; 0.75]%float]))
  = (["{probability: p, prediction: true}"], 0%Z)
  /\ fst (run (R := Toy.runtime (fun _ => false) [[0.25; 0.75]%float]))
     = (["{error: [Errno 2] No such file or directory: 'ensemble_model.pkl'}"], 1%Z)
  /\ fst (run (R := Toy.runtime (fun path => String.eqb path "ensemble_model.pkl")
                      [[0.25; 0.75]%float]))
     = (["{error: [Errno 2] No such file or directory: 'temp_input.json'}"], 1%Z)
  /\ fst (run (R := Toy.runtime (fun _ => true) [[1]%float]))
     = (["{error: list index out of range}"], 1%Z).
Proof. repeat split. Qed.

End CliFacts.

(** * Further properties of the code *)

(** ** Floats outside the order *)

Module FloatExtras.

Import PyFloat PyFloatFacts.

Lemma SFcompare_refl (a : spec_float) :
  a <> S754_nan -> SFcompare a a = Some Eq.
Proof.
  destruct a as [s|s| |s m e]; cbn; intros H; try reflexivity;
    try (destruct s; reflexivity); [congruence|].
  change (PosDef.Pos.compare_cont Eq) with Pos.compare.
  rewrite Z.compare_refl, Pos.compare_refl. destruct s; reflexivity.
Qed.

Lemma is_nan_spec (p : float) : is_nan p = true <-> Prim2SF p = S754_nan.
Proof.
  unfold is_nan. rewrite FloatAxioms.eqb_spec. unfold SFeqb. split.
  - intros H. destruct (Prim2SF p) as [s|s| |s m e] eqn:E; trivial;
      rewrite SFcompare_refl in H by discriminate; discriminate.
  - intros ->. reflexivity.
Qed.

(** NaN is above nothing and at most nothing. *)
Lemma nan_gt (p c : float) : is_nan p = true -> (p >? c)%float = false.
Proof.
  intros H. apply is_nan_spec in H. unfold gt.
  rewrite FloatAxioms.ltb_spec, H. unfold SFltb. destruct (Prim2SF c); reflexivity.
Qed.

Lemma nan_le (p c : float) : is_nan p = true -> le p c = false.
Proof.
  intros H. apply is_nan_spec in H. unfold le.
  rewrite FloatAxioms.leb_spec, H. reflexivity.
Qed.

End FloatExtras.

(** ** More on the severity classifier, the recommendations and the result *)

Module ResultExtras.

Import PyFloat PyFloatFacts SeverityFacts RecommendationFacts FloatExtras Py Api BigStep
  HandlerFacts.

Lemma severity_assembled (fmt : float -> string) (p : float) :
  severity (details (Spec.assemble fmt p)) = Main.get_severity p.
Proof. cbn. symmetry. apply get_severity_first_match. Qed.

Lemma recommendations_assembled (fmt : float -> string) (p : float) :
  recommendations (Spec.assemble fmt p)
  = Main.get_recommendations p (Main.get_severity p).
Proof.
  unfold Spec.assemble, Api.recommendations.
  pose proof (get_severity_cases p) as Hc.
  rewrite (get_severity_first_match p) in Hc |- *.
  destruct (p >? 0.5)%float eqn:H5;
    [|symmetry; now apply get_recommendations_normal].
  destruct Hc as [E|[E|[E|E]]]; rewrite E; symmetry.
  - apply get_recommendations_other; [exact H5| |]; discriminate.
  - apply get_recommendations_other; [exact H5| |]; discriminate.
  - now apply get_recommendations_Moderate.
  - now apply get_recommendations_Severe.
Qed.

Lemma prediction_assembled (fmt : float -> string) (p : float) :
  prediction (Spec.assemble fmt p)
  = if (p >? 0.5)%float then "Pneumonia" else "Normal".
Proof. reflexivity. Qed.

Lemma lungOpacity_assembled (fmt : float -> string) (p : float) :
  lungOpacity (details (Spec.assemble fmt p))
  = ((if (p >? 0.5)%float then "Increased" else "Normal")
     ++ " opacity detected in lung fields ("
     ++ fmt (p * 100)%float ++ "% confidence)")%string.
Proof. reflexivity. Qed.

(** The recommendations by the one test the generator makes first. *)
Lemma get_recommendations_normal_iff (c : float) (s : option string) :
  Main.get_recommendations c s = Spec.normal_list <-> (c >? 0.5)%float = false.
Proof.
  split; [|apply get_recommendations_normal].
  unfold Main.get_recommendations.
  destruct (c >? 0.5)%float; [|reflexivity].
  destruct (Main.eq_str s "Severe"); [discriminate|].
  destruct (Main.eq_str s "Moderate"); discriminate.
Qed.

Section WithRuntime.

Context {R : Runtime}.

(** The fields of one answer agree with each other: "Normal" goes with no
    severity, the normal-monitoring list and "Normal opacity"; "Pneumonia"
    with one of the three severity labels, the recommendations of that label
    and "Increased opacity". *)
Theorem predict_fields_agree (w : World) (request : ImageRequest)
  (st st' : state) (r : PredictionResult) :
  predict w request st = (Ret r, st') ->
  (prediction r = "Normal" \/ prediction r = "Pneumonia")
  /\ (prediction r = "Normal" <-> severity (details r) = None)
  /\ (prediction r = "Normal" <-> recommendations r = Spec.normal_list)
  /\ (prediction r = "Normal"
      <-> String.prefix "Normal opacity" (lungOpacity (details r)) = true)
  /\ (prediction r = "Pneumonia"
      <-> In (severity (details r)) [Some "Mild"; Some "Moderate"; Some "Severe"])
  /\ (prediction r = "Pneumonia"
      <-> String.prefix "Increased opacity" (lungOpacity (details r)) = true)
  /\ recommendations r
     = Main.get_recommendations (confidence r) (severity (details r)).
Proof.
  intros H. apply predict_Ret in H. destruct H as [Hr _].
  remember (confidence r) as p eqn:Hp.
  assert (Hc : confidence r = p) by congruence. clear Hp.
  rewrite Hr.
  rewrite !severity_assembled, !recommendations_assembled, !prediction_assembled,
    !lungOpacity_assembled.
  rewrite get_recommendations_normal_iff.
  pose proof (get_severity_None p) as HN.
  pose proof (get_severity_cases p) as HC.
  destruct (p >? 0.5)%float eqn:H5.
  - assert (HS : Main.get_severity p <> None) by (intros E; apply HN in E; discriminate).
    repeat split; try discriminate; auto.
    + intros E. contradiction.
    + intros _. destruct HC as [E|[E|[E|E]]]; [contradiction| | |];
        rewrite E; cbn; tauto.
  - assert (HS : Main.get_severity p = None) by (now apply HN).
    rewrite HS. repeat split; try discriminate; auto.
    + intros [E|[E|[E|[]]]]; discriminate.
Qed.

(** A NaN from the model falls on the normal side: NaN is not above 0.5
    (nor at most 0.5), so the result the handler returns says "Normal", no
    severity, and the normal-monitoring list. *)
Theorem predict_nan_is_normal (w : World) (request : ImageRequest)
  (st st' : state) (r : PredictionResult) :
  predict w request st = (Ret r, st') ->
  is_nan (confidence r) = true ->
  prediction r = "Normal"
  /\ severity (details r) = None
  /\ recommendations r = Spec.normal_list
  /\ le (confidence r) 0.5 = false
  /\ Main.get_severity (confidence r) = None
  /\ forall s, Main.get_recommendations (confidence r) s = Spec.normal_list.
Proof.
  intros H Hn. apply predict_Ret in H. destruct H as [Hr _].
  remember (confidence r) as p eqn:Hp. clear Hp.
  pose proof (nan_gt p 0.5 Hn) as H5.
  assert (HS : Main.get_severity p = None) by (now apply get_severity_None).
  rewrite Hr.
  rewrite severity_assembled, recommendations_assembled, prediction_assembled, H5, HS.
  repeat split.
  - now apply get_recommendations_normal.
  - now apply nan_le.
  - intros s. now apply get_recommendations_normal.
Qed.

End WithRuntime.

(** Whatever the confidence and the severity argument: no recommendation is
    given twice; there are 4, 6 or 7 of them; above 0.5 the three base
    recommendations are among them, in their order and next to each other;
    at or below 0.5 (or NaN) none of the three is. *)
Theorem get_recommendations_base_block (c : float) (s : option string) :
  let l := Main.get_recommendations c s in
  let base := [ "Consult with a healthcare provider";
                "Monitor breathing and oxygen levels";
                "Rest and maintain good hydration" ] in
  NoDup l
  /\ (length l = 4 \/ length l = 6 \/ length l = 7)
  /\ ((c >? 0.5)%float = true -> exists before after, l = before ++ base ++ after)
  /\ ((c >? 0.5)%float = false -> forall x, In x base -> ~ In x l).
Proof.
  cbv zeta. unfold Main.get_recommendations.
  destruct (c >? 0.5)%float.
  - destruct (Main.eq_str s "Severe"); [|destruct (Main.eq_str s "Moderate")].
    + split; [repeat constructor; cbn; intuition discriminate|].
      split; [cbn; tauto|]. split; [|discriminate].
      intros _. eexists _, []. rewrite app_nil_r. reflexivity.
    + split; [repeat constructor; cbn; intuition discriminate|].
      split; [cbn; tauto|]. split; [|discriminate].
      intros _. eexists _, []. rewrite app_nil_r. reflexivity.
    + split; [repeat constructor; cbn; intuition discriminate|].
      split; [cbn; tauto|]. split; [|discriminate].
      intros _. eexists ["Schedule medical evaluation"], _. reflexivity.
  - split; [repeat constructor; cbn; intuition discriminate|].
    split; [cbn; tauto|]. split; [discriminate|].
    intros _ x Hx. cbn in Hx |- *. intuition (subst; discriminate).
Qed.

End ResultExtras.

(** ** More on the handlers *)

Module HandlerExtras.

Import PyFloat PyFloatFacts SeverityFacts RecommendationFacts Py Api BigStep
  HandlerFacts ResultExtras.

Section WithRuntime.

Context {R : Runtime}.

Lemma serve_eq_forward (m : Model) (request : ImageRequest) (st : state)
  (t : ndarray4) :
  preprocess_image (image request) = Ret t ->
  fst (serve m request st) =
    match (prediction <- Model_predict m t;
           row <- Py.getitem prediction 0;
           p <- Py.getitem row 0;
           Ret (Spec.assemble format_1f p))%py with
    | Ret r => Ret r
    | Raise e => wrap500 "" e
    end.
Proof. intros H. unfold serve. rewrite H. reflexivity. Qed.

Lemma predict_available (w : World) (request : ImageRequest) (st : state)
  (m : Model) :
  available w st = Some m ->
  exists st1, predict w request st = serve m request st1.
Proof.
  intros Ha. rewrite predict_eq. unfold available, load_gives in Ha.
  destruct (model st) as [m0|].
  - inversion Ha; subst. eauto.
  - destruct (path_exists w model_path); [|discriminate].
    destruct (keras_load_model w model_path) as [m0|e]; [|discriminate].
    inversion Ha; subst. eauto.
Qed.

(** With a model at hand (loaded before, or by the lazy load), an image that
    preprocesses and a forward pass that returns an array with an entry at
    [0][0], the request is answered with the result built from that entry:
    both probability fields are the entry, the labels and lists are those of
    the entry.  The other entries of the array play no part. *)
Theorem predict_answers_from_first_entry (w : World) (request : ImageRequest)
  (st : state) (m : Model) (t : ndarray4) (out : list (list float))
  (row : list float) (p : float) :
  available w st = Some m ->
  preprocess_image (image request) = Ret t ->
  Model_predict m t = Ret out ->
  nth_error out 0 = Some row -> nth_error row 0 = Some p ->
  exists r,
    fst (predict w request st) = Ret r
    /\ confidence r = p /\ pneumoniaProbability r = p
    /\ prediction r = (if (p >? 0.5)%float then "Pneumonia" else "Normal")
    /\ severity (details r) = Main.get_severity p
    /\ recommendations r = Main.get_recommendations p (Main.get_severity p)
    /\ lungOpacity (details r)
       = ((if (p >? 0.5)%float then "Increased" else "Normal")
          ++ " opacity detected in lung fields ("
          ++ format_1f (p * 100)%float ++ "% confidence)")%string.
Proof.
  intros Ha Hp Hm H0 H1.
  destruct (predict_available w request st m Ha) as [st1 E].
  exists (Spec.assemble format_1f p). split.
  - assert (G0 : Py.getitem out 0 = Ret row) by (unfold Py.getitem; now rewrite H0).
    assert (G1 : Py.getitem row 0 = Ret p) by (unfold Py.getitem; now rewrite H1).
    rewrite E, (serve_eq_forward _ _ _ _ Hp), Hm. cbn [Py.bind].
    rewrite G0. cbn [Py.bind]. rewrite G1. reflexivity.
  - split; [reflexivity|]. split; [reflexivity|]. split; [reflexivity|].
    split; [apply severity_assembled|].
    split; [apply recommendations_assembled|reflexivity].
Qed.

(** An output array without an entry at [0][0] (no row, or an empty first
    row) is an IndexError inside the second [try]: the request is answered
    with a 500, not with a result. *)
Theorem predict_short_output_is_500 (w : World) (request : ImageRequest)
  (st : state) (m : Model) (t : ndarray4) (out : list (list float)) :
  available w st = Some m ->
  preprocess_image (image request) = Ret t ->
  Model_predict m t = Ret out ->
  (out = [] \/ exists rest, out = [] :: rest) ->
  exists detail, fst (predict w request st) = Raise (HTTPException 500 detail).
Proof.
  intros Ha Hp Hm Hs.
  destruct (predict_available w request st m Ha) as [st1 E].
  rewrite E, (serve_eq_forward _ _ _ _ Hp), Hm.
  destruct Hs as [-> | [rest ->]]; cbn; eauto.
Qed.

(** The lazy load outlives the request that made it: when a request finds no
    model, loads one, and then fails on its image, the answer is a 500 and
    the model stays; /health says loaded from then on, and the next request
    makes no load call. *)
Theorem failed_request_keeps_loaded_model (w w' : World)
  (request request' : ImageRequest) (st : state) (m : Model) (msg : string) :
  model st = None ->
  load_gives w = Some m ->
  preprocess_image (image request) = Raise (Exception msg) ->
  let st1 := snd (predict w request st) in
  fst (predict w request st) = Raise (HTTPException 500 msg)
  /\ model st1 = Some m
  /\ fst (health_check (E := exn) st1)
     = Ret {| status := "healthy"; model_loaded := true |}
  /\ exists cs,
       calls (snd (predict w' request' st1)) = calls st1 ++ cs
       /\ ~ In (OsPathExists model_path) cs
       /\ ~ In (KerasLoadModel model_path) cs.
Proof.
  intros Hm Hl Hp. cbv zeta.
  assert (Hst : model (snd (predict w request st)) = Some m).
  { pose proof (step_model w (PostPredict request) st) as S.
    unfold step in S. destruct (predict w request st) as [r s1]. cbn in *.
    rewrite S, Hm. exact Hl. }
  split.
  { apply (predict_preprocess_error _ _ _ m); [|exact Hp].
    unfold available. now rewrite Hm. }
  split; [exact Hst|].
  split.
  { rewrite health_check_eq. cbn [fst]. unfold loaded. now rewrite Hst. }
  destruct (predict_calls w' request' (snd (predict w request st)))
    as [cs [E [_ [H1 H2]]]].
  exists cs. split; [exact E|]. split.
  - intros Hin. apply H1 in Hin. congruence.
  - intros Hin. apply H2 in Hin. destruct Hin as [Hin _]. congruence.
Qed.

(** [load_model] either sets the model and prints its one line, or raises
    and leaves the model and the output as they were.  keras is asked only
    after the file was found; a model already there is not looked at: a
    load that succeeds replaces it. *)
Theorem load_model_sets_or_leaves (w : World) (st : state) :
  let out := load_model w st in
  (fst out = Ret tt ->
     exists m, keras_load_model w model_path = Ret m
       /\ path_exists w model_path = true
       /\ model (snd out) = Some m
       /\ stdout (snd out)
          = stdout st ++ ["Model loaded successfully from pneumonia_detection_model.h5"])
  /\ (forall e, fst out = Raise e ->
        model (snd out) = model st /\ stdout (snd out) = stdout st)
  /\ (path_exists w model_path = false ->
        fst out = Raise (Exception "Model file not found at pneumonia_detection_model.h5")
        /\ calls (snd out) = calls st ++ [OsPathExists model_path])
  /\ (path_exists w model_path = true ->
        calls (snd out)
        = calls st ++ [OsPathExists model_path; KerasLoadModel model_path]).
Proof.
  cbv zeta. rewrite load_model_eq.
  destruct (path_exists w model_path).
  - destruct (keras_load_model w model_path) as [m|e]; cbn.
    + split; [intros _; exists m; repeat split|].
      split; [discriminate|]. split; [discriminate|reflexivity].
    + split; [discriminate|].
      split; [intros e0 _; split; [reflexivity|apply app_nil_r]|].
      split; [discriminate|reflexivity].
  - cbn. split; [discriminate|].
    split; [intros e0 _; split; [reflexivity|apply app_nil_r]|].
    split; [intros _; split; reflexivity|discriminate].
Qed.

(** The startup hook never raises an [Exception]: when the load raises one,
    the hook prints "Error loading model: " and the message, and returns, so
    the service starts without a model.  It prints exactly one line. *)
Theorem startup_event_swallows_exceptions (w : World) (st : state) :
  (forall e, load_gives w = None -> path_exists w model_path = true ->
             keras_load_model w model_path = Raise e ->
             isinstance_Exception e = true) ->
  let out := startup_event w st in
  fst out = Ret tt
  /\ (exists line, stdout (snd out) = stdout st ++ [line])
  /\ model (snd out) = match load_gives w with Some m => Some m | None => model st end
  /\ (forall msg, fst (load_model w st) = Raise (Exception msg) ->
        stdout (snd out) = stdout st ++ [("Error loading model: " ++ msg)%string]).
Proof.
  intros He. cbv zeta. rewrite startup_event_eq, load_model_eq.
  unfold load_gives in *.
  destruct (path_exists w model_path).
  - destruct (keras_load_model w model_path) as [m|e]; cbn.
    + repeat split; eauto. discriminate.
    + specialize (He e eq_refl eq_refl eq_refl).
      destruct e as [msg|code|]; try discriminate. cbn.
      repeat split; eauto. intros msg0 E. inversion E. reflexivity.
  - cbn. repeat split; eauto. intros msg0 E. inversion E. reflexivity.
Qed.

(** [preprocess_image] fails only where a library call fails: what it raises
    was raised by the base64 decoder, [Image.open], [convert], [resize] or
    [np.array]; taking the part after "base64," never raises. *)
Theorem preprocess_image_raises_from_library (image_data : string) (e : exn) :
  preprocess_image image_data = Raise e ->
  exists s, payload image_data = Ret s
    /\ (b64decode s = Raise e
        \/ exists raw, b64decode s = Ret raw
           /\ (Image_open raw = Raise e
               \/ exists img0, Image_open raw = Ret img0
                  /\ ((Image_mode img0 <> "RGB" /\ Image_convert img0 "RGB" = Raise e)
                      \/ exists img1,
                           (if negb (String.eqb (Image_mode img0) "RGB")
                            then Image_convert img0 "RGB" else Ret img0) = Ret img1
                           /\ (Image_resize img1 (224, 224) = Raise e
                               \/ exists img2, Image_resize img1 (224, 224) = Ret img2
                                  /\ np_array img2 = Raise e)))).
Proof.
  unfold preprocess_image. fold (payload image_data).
  destruct (NormalizerFacts.payload_returns image_data) as [s Hs].
  rewrite Hs. cbn. intros H. exists s. split; [reflexivity|].
  destruct (b64decode s) as [raw|e1]; [cbn in H|inversion H; auto].
  right. exists raw. split; [reflexivity|].
  destruct (Image_open raw) as [img0|e1]; [cbn in H|inversion H; auto].
  right. exists img0. split; [reflexivity|].
  destruct (String.eqb (Image_mode img0) "RGB") eqn:Em; cbn in H.
  - right. exists img0. split; [reflexivity|].
    destruct (Image_resize img0 (224, 224)) as [img2|e1]; [cbn in H|inversion H; auto].
    right. exists img2. split; [reflexivity|].
    destruct (np_array img2) as [a|e1]; [discriminate|inversion H; auto].
  - destruct (Image_convert img0 "RGB") as [img1|e1]; cbn in H.
    + right. exists img1. split; [reflexivity|].
      destruct (Image_resize img1 (224, 224)) as [img2|e1];
        [cbn in H|inversion H; auto].
      right. exists img2. split; [reflexivity|].
      destruct (np_array img2) as [a|e1]; [discriminate|inversion H; auto].
    + left. split; [|inversion H; reflexivity].
      now apply String.eqb_neq.
Qed.

End WithRuntime.

(** With two "base64," in the text, what is decoded is the part between the
    first and the second: [split(..)[1]] drops what follows the second. *)
Theorem payload_between_separators (header middle tail : string) :
  lacks "," header = true -> lacks "," middle = true ->
  payload (header ++ "base64," ++ middle ++ "base64," ++ tail) = Ret middle.
Proof.
  intros Hh Hm. unfold payload, split.
  rewrite NormalizerFacts.contains_header, (NormalizerFacts.split_header _ _ _ Hh),
    (NormalizerFacts.split_header _ _ _ Hm).
  reflexivity.
Qed.

End HandlerExtras.

(** ** The conversion scripts *)

Module ConvertFacts.

Import Py Convert ExportSteps.

Section WithRuntime.

Context {R : Runtime}.

Lemma export_model_eq : export_model start = export_model_steps.
Proof.
  unfold export_model, export_model_steps, finish, opening, last_lines,
    could_not_load, warning, bindM, invoke, print, ret, try_except_all, start.
  fold output_dir. cbn.
  destruct (import_module "tensorflow") as [[]|e]; [|reflexivity].
  destruct (makedirs output_dir true) as [[]|e]; [|reflexivity].
  destruct (load_model "brain_stroke_model") as [m|e0].
  - destruct (save_model m output_dir true false) as [[]|e]; [|reflexivity].
    destruct (import_module "tensorflowjs") as [[]|e]; [|reflexivity].
    destruct (save_keras_model m output_dir) as [[]|e]; reflexivity.
  - destruct (Sequential architecture) as [m|e]; [|reflexivity].
    destruct (compile m "adam" "binary_crossentropy" ["accuracy"]) as [[]|e];
      [|reflexivity].
    destruct (load_weights m "brain_stroke_weights.h5") as [[]|e1];
      (destruct (save_model m output_dir true false) as [[]|e]; [|reflexivity];
       destruct (import_module "tensorflowjs") as [[]|e]; [|reflexivity];
       destruct (save_keras_model m output_dir) as [[]|e]; reflexivity).
Qed.

Ltac call_cases H :=
  cbn in H;
  repeat match type of H with
         | _ \/ _ => destruct H as [H|H]
         | False => destruct H
         end;
  try discriminate H.

(** export_model.py goes on whatever the two loads raise: with a bare
    [except], a failing [load_model] (an [Exception], a [SystemExit], a
    [KeyboardInterrupt]) leads to the rebuilt architecture, and a failing
    [load_weights] to the warning.  When the other calls return, the script
    saves and converts the rebuilt, untrained model and ends with status 0. *)
Theorem export_model_survives_load_failures (e1 e2 : exn) (m : Model) :
  import_module "tensorflow" = Ret tt ->
  makedirs output_dir true = Ret tt ->
  load_model "brain_stroke_model" = Raise e1 ->
  Sequential architecture = Ret m ->
  compile m "adam" "binary_crossentropy" ["accuracy"] = Ret tt ->
  load_weights m "brain_stroke_weights.h5" = Raise e2 ->
  save_model m output_dir true false = Ret tt ->
  import_module "tensorflowjs" = Ret tt ->
  save_keras_model m output_dir = Ret tt ->
  run export_model
  = ([ could_not_load; warning;
       ("Model saved to " ++ output_dir ++ " in TensorFlow.js format")%string;
       "You can now use this model in your web application." ],
     0%Z,
     [ Import "tensorflow"; Makedirs output_dir true; LoadModel "brain_stroke_model";
       BuildSequential architecture; Compile m;
       LoadWeights m "brain_stroke_weights.h5";
       SaveModel m output_dir; Import "tensorflowjs"; SaveKerasModel m output_dir ]).
Proof.
  intros H1 H2 H3 H4 H5 H6 H7 H8 H9. unfold run.
  rewrite export_model_eq. unfold export_model_steps, finish.
  rewrite H1, H2, H3, H4, H5, H6, H7, H8, H9. reflexivity.
Qed.

(** What export_model.py saves is the model it loaded, or, when the load
    raised, the one it built and compiled; it saves into the directory it
    made; and it converts only after the Keras save of the same model
    returned and tensorflowjs was imported. *)
Theorem export_model_saves_loaded_or_built (m : Model) (d : string) :
  In (SaveModel m d) (calls (snd (export_model start)))
  \/ In (SaveKerasModel m d) (calls (snd (export_model start))) ->
  d = output_dir
  /\ import_module "tensorflow" = Ret tt
  /\ makedirs output_dir true = Ret tt
  /\ (load_model "brain_stroke_model" = Ret m
      \/ ((exists e, load_model "brain_stroke_model" = Raise e)
          /\ Sequential architecture = Ret m
          /\ compile m "adam" "binary_crossentropy" ["accuracy"] = Ret tt))
  /\ In (SaveModel m d) (calls (snd (export_model start)))
  /\ (In (SaveKerasModel m d) (calls (snd (export_model start))) ->
      save_model m d true false = Ret tt
      /\ import_module "tensorflowjs" = Ret tt).
Proof.
  rewrite export_model_eq. unfold export_model_steps, finish, opening.
  destruct (import_module "tensorflow") as [[]|e] eqn:E1;
    [|intros [H|H]; call_cases H].
  destruct (makedirs output_dir true) as [[]|e] eqn:E2;
    [|intros [H|H]; call_cases H].
  destruct (load_model "brain_stroke_model") as [m0|e0] eqn:E3.
  - destruct (save_model m0 output_dir true false) as [[]|e] eqn:E4;
      [destruct (import_module "tensorflowjs") as [[]|e] eqn:E5;
       [destruct (save_keras_model m0 output_dir) as [[]|e] eqn:E6|]|];
      (intros [H|H]; call_cases H; injection H as <- <-;
       (split; [reflexivity|]); (split; [reflexivity|]); (split; [reflexivity|]);
       (split; [left; reflexivity|]);
       (split; [cbn; tauto|]);
       intros G; call_cases G; split; assumption || reflexivity).
  - destruct (Sequential architecture) as [m0|e] eqn:E7;
      [|intros [H|H]; call_cases H].
    destruct (compile m0 "adam" "binary_crossentropy" ["accuracy"]) as [[]|e] eqn:E8;
      [|intros [H|H]; call_cases H].
    destruct (save_model m0 output_dir true false) as [[]|e] eqn:E4;
      [destruct (import_module "tensorflowjs") as [[]|e] eqn:E5;
       [destruct (save_keras_model m0 output_dir) as [[]|e] eqn:E6|]|];
      (intros [H|H]; call_cases H; injection H as <- <-;
       (split; [reflexivity|]); (split; [reflexivity|]); (split; [reflexivity|]);
       (split; [right; split; [eauto|split; [reflexivity|assumption]]|]);
       (split; [cbn; tauto|]);
       intros G; call_cases G; split; assumption || reflexivity).
Qed.

(** A missing tensorflowjs shows late in export_model.py: when its import
    raises, the Keras save into the output directory has already returned,
    nothing is converted, the last two lines are not printed, and the script
    ends with that exception. *)
Theorem export_model_imports_tfjs_after_keras_save (e : exn) :
  import_module "tensorflowjs" = Raise e ->
  In (Import "tensorflowjs") (calls (snd (export_model start))) ->
  fst (export_model start) = Raise e
  /\ (exists m, In (SaveModel m output_dir) (calls (snd (export_model start)))
                /\ save_model m output_dir true false = Ret tt)
  /\ (forall m d, ~ In (SaveKerasModel m d) (calls (snd (export_model start))))
  /\ ~ In "You can now use this model in your web application."
         (stdout (snd (export_model start))).
Proof.
  intros Hi. rewrite export_model_eq. unfold export_model_steps, finish, opening.
  destruct (import_module "tensorflow") as [[]|e0] eqn:E1;
    [|intros H; call_cases H].
  destruct (makedirs output_dir true) as [[]|e0] eqn:E2;
    [|intros H; call_cases H].
  destruct (load_model "brain_stroke_model") as [m0|e0] eqn:E3.
  - destruct (save_model m0 output_dir true false) as [[]|e1] eqn:E4;
      [|intros H; call_cases H].
    rewrite Hi. intros _. cbn.
    split; [reflexivity|]. split; [exists m0; tauto|].
    split; [intros m d H; call_cases H|].
    intros H. call_cases H.
  - destruct (Sequential architecture) as [m0|e1] eqn:E7;
      [|intros H; call_cases H].
    destruct (compile m0 "adam" "binary_crossentropy" ["accuracy"]) as [[]|e1] eqn:E8;
      [|intros H; call_cases H].
    destruct (save_model m0 output_dir true false) as [[]|e1] eqn:E4;
      [|intros H; call_cases H].
    rewrite Hi. intros _. cbn.
    split; [reflexivity|]. split; [exists m0; tauto|].
    split; [intros m d H; call_cases H|].
    intros H. call_cases H.
    destruct (load_weights m0 "brain_stroke_weights.h5"); discriminate H.
Qed.

(** convert_skin_cancer_model.py calls [os.makedirs] on the output directory
    before it loads the model: when the load raises, [makedirs] has returned,
    the script ends with that exception, and neither the summary nor the
    conversion was called.  What it converts is the model it loaded, after
    the summary returned, into that directory.  It ends normally exactly when
    every call returned, and then the last line written is the closing
    line. *)
Theorem convert_skin_cancer_model_steps :
  let dir := path_join ["public"; "models"; "skin-cancer"] in
  let r := convert_skin_cancer_model start in
  (forall e,
     import_module "tensorflow" = Ret tt -> import_module "tensorflowjs" = Ret tt ->
     makedirs dir true = Ret tt ->
     load_model "skin_cancer_model.h5" = Raise e ->
     fst r = Raise e
     /\ calls (snd r) = [ Import "tensorflow"; Import "tensorflowjs";
                          Makedirs dir true; LoadModel "skin_cancer_model.h5" ])
  /\ (forall m d, In (SaveKerasModel m d) (calls (snd r)) ->
        d = dir /\ load_model "skin_cancer_model.h5" = Ret m
        /\ makedirs dir true = Ret tt
        /\ exists lines, summary m = Ret lines)
  /\ (fst r = Ret tt <->
      exists m lines,
        import_module "tensorflow" = Ret tt /\ import_module "tensorflowjs" = Ret tt
        /\ makedirs dir true = Ret tt
        /\ load_model "skin_cancer_model.h5" = Ret m
        /\ summary m = Ret lines
        /\ save_keras_model m dir = Ret tt)
  /\ (fst r = Ret tt ->
      exists before,
        stdout (snd r)
        = before ++ [("Model converted and saved to " ++ dir)%string]
        /\ calls (snd r)
           = [ Import "tensorflow"; Import "tensorflowjs"; Makedirs dir true;
               LoadModel "skin_cancer_model.h5" ]
             ++ match load_model "skin_cancer_model.h5" with
                | Ret m => [Summary m; SaveKerasModel m dir]
                | Raise _ => []
                end).
Proof.
  cbv zeta. set (dir := path_join ["public"; "models"; "skin-cancer"]).
  unfold convert_skin_cancer_model, bindM, invoke, print, print_lines, start.
  fold dir. cbn.
  destruct (import_module "tensorflow") as [[]|e0] eqn:E1.
  2:{ split; [discriminate|]. split; [intros m d H; call_cases H|].
      split; [|discriminate].
      split; [discriminate|]. intros (m & l & H & _). discriminate H. }
  destruct (import_module "tensorflowjs") as [[]|e0] eqn:E2.
  2:{ split; [discriminate|]. split; [intros m d H; call_cases H|].
      split; [|discriminate].
      split; [discriminate|]. intros (m & l & _ & H & _). discriminate H. }
  destruct (makedirs dir true) as [[]|e0] eqn:E3.
  2:{ split; [discriminate|]. split; [intros m d H; call_cases H|].
      split; [|discriminate].
      split; [discriminate|]. intros (m & l & _ & _ & H & _). discriminate H. }
  destruct (load_model "skin_cancer_model.h5") as [m0|e0] eqn:E4.
  2:{ split; [intros e _ _ _ H; inversion H; split; reflexivity|].
      split; [intros m d H; call_cases H|].
      split; [|discriminate].
      split; [discriminate|]. intros (m & l & _ & _ & _ & H & _). discriminate H. }
  destruct (summary m0) as [lines|e0] eqn:E5.
  2:{ cbn. split; [discriminate|]. split; [intros m d H; call_cases H|].
      split; [|discriminate].
      split; [discriminate|].
      intros (m & l & _ & _ & _ & H & H' & _). inversion H; subst. congruence. }
  destruct (save_keras_model m0 dir) as [[]|e0] eqn:E6; cbn.
  - split; [discriminate|].
    split.
    { intros m d H. call_cases H. injection H as <- <-. eauto 6. }
    split; [split; [intros _; exists m0, lines; repeat split; assumption|reflexivity]|].
    intros _. exists lines. split; reflexivity.
  - split; [discriminate|].
    split.
    { intros m d H. call_cases H. injection H as <- <-. eauto 6. }
    split; [|discriminate].
    split; [discriminate|].
    intros (m & l & _ & _ & _ & H & _ & H'). inversion H; subst. congruence.
Qed.

(** convert_pneumonia_model.py converts the model it loaded from
    "pneumonia_detection_model(1).h5" into "public/models/pneumonia", and
    nothing else; its calls are always a beginning of: import tensorflowjs,
    import tensorflow, load, convert.  So when tensorflowjs is missing it
    stops at the first import, before anything is loaded; and it ends normally
    exactly when the two imports, the load and the conversion returned. *)
Theorem convert_pneumonia_model_steps :
  let r := convert_pneumonia_model start in
  (forall m d, In (SaveKerasModel m d) (calls (snd r)) ->
     d = "public/models/pneumonia"
     /\ load_model "pneumonia_detection_model(1).h5" = Ret m
     /\ import_module "tensorflowjs" = Ret tt /\ import_module "tensorflow" = Ret tt)
  /\ (exists rest,
        calls (snd r) ++ rest
        = [ Import "tensorflowjs"; Import "tensorflow";
            LoadModel "pneumonia_detection_model(1).h5" ]
          ++ match load_model "pneumonia_detection_model(1).h5" with
             | Ret m => [SaveKerasModel m "public/models/pneumonia"]
             | Raise _ => []
             end)
  /\ (fst r = Ret tt <->
      import_module "tensorflowjs" = Ret tt /\ import_module "tensorflow" = Ret tt
      /\ exists m, load_model "pneumonia_detection_model(1).h5" = Ret m
                   /\ save_keras_model m "public/models/pneumonia" = Ret tt)
  /\ (forall e, import_module "tensorflowjs" = Raise e ->
        fst r = Raise e /\ calls (snd r) = [Import "tensorflowjs"])
  /\ (forall e, import_module "tensorflowjs" = Ret tt ->
        import_module "tensorflow" = Ret tt ->
        load_model "pneumonia_detection_model(1).h5" = Raise e ->
        fst r = Raise e
        /\ forall m d, ~ In (SaveKerasModel m d) (calls (snd r))).
Proof.
  cbv zeta. unfold convert_pneumonia_model, bindM, invoke, start. cbn.
  destruct (import_module "tensorflowjs") as [[]|e0] eqn:E1.
  2:{ split; [intros m d H; call_cases H|].
      split; [eexists; cbn; reflexivity|].
      split; [split; [discriminate|intros [H _]; discriminate H]|].
      split; [intros e H; inversion H; split; reflexivity|discriminate]. }
  destruct (import_module "tensorflow") as [[]|e0] eqn:E2.
  2:{ split; [intros m d H; call_cases H|].
      split; [eexists; cbn; reflexivity|].
      split; [split; [discriminate|intros [_ [H _]]; discriminate H]|].
      split; discriminate. }
  destruct (load_model "pneumonia_detection_model(1).h5") as [m0|e0] eqn:E3.
  2:{ split; [intros m d H; call_cases H|].
      split; [exists []; reflexivity|].
      split; [split; [discriminate|intros [_ [_ [m [H _]]]]; discriminate H]|].
      split; [discriminate|].
      intros e _ _ H. inversion H. split; [reflexivity|].
      intros m d G. call_cases G. }
  split.
  { intros m d H. destruct (save_keras_model m0 "public/models/pneumonia");
      call_cases H; injection H as <- <-; repeat split. }
  split.
  { exists []. destruct (save_keras_model m0 "public/models/pneumonia"); reflexivity. }
  split; [|split; discriminate].
  destruct (save_keras_model m0 "public/models/pneumonia") as [[]|e0] eqn:E4; cbn.
  - split; [intros _; repeat split; eauto|reflexivity].
  - split; [discriminate|].
    intros [_ [_ [m [H H']]]]. inversion H; subst. congruence.
Qed.

End WithRuntime.

End ConvertFacts.

(** ** More on the command-line predictor *)

Module CliExtras.

Import Py Cli CliFacts.

Section WithRuntime.

Context {R : Runtime}.


(** The script stops at the first call that raises: its calls are always a
    beginning of: open the model file, unpickle, open the input file, parse,
    predict.  So the input file is not opened when the model file cannot be
    read, and the model is asked only after both files were read and the
    input was reshaped. *)
Theorem cli_stops_at_first_failure :
  (exists rest,
     snd run ++ rest
     = [ Open "ensemble_model.pkl" "rb"; PickleLoad;
         Open "temp_input.json" "r"; JsonLoad; PredictProba ])
  /\ (forall e, open_ "ensemble_model.pkl" "rb" = Raise e ->
        snd run = [Open "ensemble_model.pkl" "rb"])
  /\ (forall f e, open_ "ensemble_model.pkl" "rb" = Ret f -> pickle_load f = Raise e ->
        snd run = [Open "ensemble_model.pkl" "rb"; PickleLoad])
  /\ (In PredictProba (snd run) ->
      exists f model g input_data input_array,
        open_ "ensemble_model.pkl" "rb" = Ret f /\ pickle_load f = Ret model
        /\ open_ "temp_input.json" "r" = Ret g /\ json_load g = Ret input_data
        /\ np_array_reshape_row input_data = Ret input_array).
Proof.
  unfold run, main, try_except, bindM, log, lift, print, sys_exit, raise. cbn.
  destruct (open_ "ensemble_model.pkl" "rb") as [f|e0] eqn:E1.
  2:{ destruct e0; cbn; (split; [eexists; reflexivity|]);
        (split; [intros; reflexivity|]); (split; [intros; discriminate|]);
        intros H; cbn in H; intuition discriminate. }
  cbn. destruct (pickle_load f) as [model|e0] eqn:E2.
  2:{ destruct e0; cbn; (split; [eexists; reflexivity|]);
        (split; [intros; discriminate|]); (split; [intros; reflexivity|]);
        intros H; cbn in H; intuition discriminate. }
  cbn. destruct (open_ "temp_input.json" "r") as [g|e0] eqn:E3.
  2:{ destruct e0; cbn; (split; [eexists; reflexivity|]);
        (split; [intros; discriminate|]); (split; [intros; congruence|]);
        intros H; cbn in H; intuition discriminate. }
  cbn. destruct (json_load g) as [input_data|e0] eqn:E4.
  2:{ destruct e0; cbn; (split; [eexists; reflexivity|]);
        (split; [intros; discriminate|]); (split; [intros; congruence|]);
        intros H; cbn in H; intuition discriminate. }
  cbn. destruct (np_array_reshape_row input_data) as [input_array|e0] eqn:E5.
  2:{ destruct e0; cbn; (split; [eexists; reflexivity|]);
        (split; [intros; discriminate|]); (split; [intros; congruence|]);
        intros H; cbn in H; intuition discriminate. }
  cbn.
  assert (W : exists f0 model0 g0 input_data0 input_array0,
             Ret (E := exn) f = Ret f0 /\ pickle_load f0 = Ret model0
             /\ Ret (E := exn) g = Ret g0 /\ json_load g0 = Ret input_data0
             /\ np_array_reshape_row input_data0 = Ret input_array0)
    by (exists f, model, g, input_data, input_array; repeat split; assumption).
  destruct (predict_proba model input_array) as [proba|e0]; cbn.
  2:{ destruct e0; cbn; (split; [exists []; reflexivity|]);
        (split; [intros; discriminate|]); (split; [intros; congruence|]);
        intros _; exact W. }
  destruct (Py.getitem proba 0) as [row|e0]; cbn.
  2:{ destruct e0; cbn; (split; [exists []; reflexivity|]);
        (split; [intros; discriminate|]); (split; [intros; congruence|]);
        intros _; exact W. }
  destruct (Py.getitem row 1) as [p|e0]; cbn.
  2:{ destruct e0; cbn; (split; [exists []; reflexivity|]);
        (split; [intros; discriminate|]); (split; [intros; congruence|]);
        intros _; exact W. }
  split; [exists []; reflexivity|].
  split; [intros; discriminate|]. split; [intros; congruence|]. intros _; exact W.
Qed.

End WithRuntime.

End CliExtras.

(** ** The further properties on concrete runs *)

Module ExtraWitnesses.

Import PyFloat Py.

Module OfApi.

Import Api BigStep HandlerFacts ResultExtras HandlerExtras.

(** A request answered by a model that says 0.95. *)
Lemma predict_fields_agree_witness :
  let r := Spec.assemble (fun _ => "?") 0.95 in
  prediction r = "Pneumonia"
  <-> In (severity (details r)) [Some "Mild"; Some "Moderate"; Some "Severe"].
Proof.
  cbv zeta.
  assert (H : predict (R := Toy.runtime) (Toy.world_with 0.95)
                {| image := Toy.data_url |} initial
              = (Ret (Spec.assemble (fun _ => "?") 0.95),
                 after (R := Toy.runtime) initial (Some 0.95%float)
                   ["Model loaded successfully from pneumonia_detection_model.h5"]
                   [OsPathExists model_path; KerasLoadModel model_path;
                    PreprocessImage Toy.data_url; ModelPredict]))
    by (vm_compute; reflexivity).
  exact (proj1 (proj2 (proj2 (proj2 (proj2
           (predict_fields_agree (R := Toy.runtime) _ _ _ _ _ H)))))).
Defined.

(** A request answered by a model that says NaN. *)
Lemma predict_nan_is_normal_witness :
  let r := Spec.assemble (fun _ => "?") PrimFloat.nan in
  prediction r = "Normal" /\ severity (details r) = None.
Proof.
  cbv zeta.
  assert (H : predict (R := Toy.runtime) (Toy.world_with PrimFloat.nan)
                {| image := Toy.data_url |} initial
              = (Ret (Spec.assemble (fun _ => "?") PrimFloat.nan),
                 after (R := Toy.runtime) initial (Some PrimFloat.nan)
                   ["Model loaded successfully from pneumonia_detection_model.h5"]
                   [OsPathExists model_path; KerasLoadModel model_path;
                    PreprocessImage Toy.data_url; ModelPredict]))
    by (vm_compute; reflexivity).
  pose proof (predict_nan_is_normal (R := Toy.runtime) _ _ _ _ _ H eq_refl) as P.
  split; [exact (proj1 P)|exact (proj1 (proj2 P))].
Defined.

(** A model whose output array has two rows: the answer is built from 0.7. *)
Lemma predict_answers_from_first_entry_witness :
  exists r,
    fst (predict (R := Doubles.array_runtime)
           (Doubles.world_answering [[0.7; 0.3]; [0.1]]%float)
           {| image := Toy.data_url |} initial) = Ret r
    /\ confidence r = 0.7%float.
Proof.
  destruct (predict_answers_from_first_entry (R := Doubles.array_runtime)
              (Doubles.world_answering [[0.7; 0.3]; [0.1]]%float)
              {| image := Toy.data_url |} initial
              [[0.7; 0.3]; [0.1]]%float
              (expand_dims0
                 (map (map (map div255)) (repeat (repeat (repeat 105%Z 3) 224) 224)))
              [[0.7; 0.3]; [0.1]]%float [0.7; 0.3]%float 0.7%float
              eq_refl eq_refl eq_refl eq_refl eq_refl) as [r [H1 [H2 _]]].
  exists r. split; assumption.
Defined.

(** A model whose output array is empty. *)
Lemma predict_short_output_is_500_witness :
  exists detail,
    fst (predict (R := Doubles.array_runtime) (Doubles.world_answering [])
           {| image := Toy.data_url |} initial)
    = Raise (HTTPException 500 detail).
Proof.
  exact (predict_short_output_is_500 (R := Doubles.array_runtime)
           (Doubles.world_answering []) {| image := Toy.data_url |} initial
           []
           (expand_dims0
              (map (map (map div255)) (repeat (repeat (repeat 105%Z 3) 224) 224)))
           [] eq_refl eq_refl eq_refl (or_introl eq_refl)).
Defined.

(** A first request with a text that does not decode, the model file there. *)
Lemma failed_request_keeps_loaded_model_witness :
  fst (predict (R := Toy.runtime) (Toy.world_with 0.95) {| image := "!!" |} initial)
  = Raise (HTTPException 500 "Incorrect padding")
  /\ model (snd (predict (R := Toy.runtime) (Toy.world_with 0.95)
                   {| image := "!!" |} initial))
     = Some 0.95%float.
Proof.
  pose proof (failed_request_keeps_loaded_model (R := Toy.runtime)
                (Toy.world_with 0.95) (Toy.world_with 0.95)
                {| image := "!!" |} {| image := "!!" |} initial
                0.95%float "Incorrect padding" eq_refl eq_refl eq_refl) as P.
  cbv zeta in P. split; [exact (proj1 P)|exact (proj1 (proj2 P))].
Defined.

(** Startup with a model file keras cannot read. *)
Lemma startup_event_swallows_exceptions_witness :
  fst (startup_event (R := Toy.runtime)
         (Doubles.world_failing (Exception "bad file")) initial) = Ret tt
  /\ stdout (snd (startup_event (R := Toy.runtime)
                    (Doubles.world_failing (Exception "bad file")) initial))
     = ["Error loading model: bad file"].
Proof.
  assert (He : forall e,
             load_gives (Doubles.world_failing (Exception "bad file")) = None ->
             path_exists (Doubles.world_failing (Exception "bad file")) model_path
             = true ->
             keras_load_model (Doubles.world_failing (Exception "bad file")) model_path
             = Raise e ->
             isinstance_Exception e = true).
  { intros e _ _ H. cbn in H. injection H as <-. reflexivity. }
  pose proof (startup_event_swallows_exceptions (R := Toy.runtime)
                (Doubles.world_failing (Exception "bad file")) initial He) as P.
  cbv zeta in P. split; [exact (proj1 P)|].
  exact (proj2 (proj2 (proj2 P)) "bad file" eq_refl).
Defined.

(** A text that does not decode. *)
Lemma preprocess_image_raises_from_library_witness :
  exists s, payload "!!" = Ret s
            /\ b64decode (Runtime := Toy.runtime) s = Raise (Exception "Incorrect padding").
Proof.
  destruct (preprocess_image_raises_from_library (R := Toy.runtime) "!!"
              (Exception "Incorrect padding") eq_refl) as [s [H1 H2]].
  exists s. split; [exact H1|].
  injection H1 as <-. reflexivity.
Defined.

(** A text with two separators. *)
Lemma payload_between_separators_witness :
  payload "data:image/png;base64,QUJDbase64,xyz" = Ret "QUJD".
Proof.
  exact (payload_between_separators "data:image/png;" "QUJD" "xyz" eq_refl eq_refl).
Defined.

End OfApi.

Module OfScripts.

Import Convert ExportSteps ConvertFacts.

(** Neither the saved model nor the weights are there. *)
Lemma export_model_survives_load_failures_witness :
  snd (fst (run (R := Toy.runtime ["brain_stroke_model"; "brain_stroke_weights.h5"])
              export_model)) = 0%Z.
Proof.
  rewrite (export_model_survives_load_failures
             (R := Toy.runtime ["brain_stroke_model"; "brain_stroke_weights.h5"])
             (Exception "No file or directory found at brain_stroke_model")
             KeyboardInterrupt "sequential"
             eq_refl eq_refl eq_refl eq_refl eq_refl eq_refl eq_refl eq_refl eq_refl).
  reflexivity.
Defined.

(** Everything is there: the loaded model is the one saved. *)
Lemma export_model_saves_loaded_or_built_witness :
  "public/models/brain-stroke" = output_dir (R := Toy.runtime [])
  /\ load_model (Runtime := Toy.runtime []) "brain_stroke_model"
     = Ret "brain_stroke_model".
Proof.
  assert (H : In (SaveModel (R := Toy.runtime []) "brain_stroke_model"
                    "public/models/brain-stroke")
                (calls (snd (export_model (R := Toy.runtime []) start))))
    by (vm_compute; tauto).
  pose proof (export_model_saves_loaded_or_built (R := Toy.runtime [])
                "brain_stroke_model" "public/models/brain-stroke" (or_introl H)) as P.
  split; [exact (proj1 P)|reflexivity].
Defined.

(** tensorflowjs is not installed. *)
Lemma export_model_imports_tfjs_after_keras_save_witness :
  fst (export_model (R := Toy.runtime ["tensorflowjs"]) start)
  = Raise (Exception "No module named 'tensorflowjs'")
  /\ exists m, In (SaveModel m (output_dir (R := Toy.runtime ["tensorflowjs"])))
                 (calls (snd (export_model (R := Toy.runtime ["tensorflowjs"]) start))).
Proof.
  assert (H : In (Import (R := Toy.runtime ["tensorflowjs"]) "tensorflowjs")
                (calls (snd (export_model (R := Toy.runtime ["tensorflowjs"]) start))))
    by (vm_compute; tauto).
  pose proof (export_model_imports_tfjs_after_keras_save
                (R := Toy.runtime ["tensorflowjs"])
                (Exception "No module named 'tensorflowjs'") eq_refl H) as P.
  split; [exact (proj1 P)|].
  destruct (proj1 (proj2 P)) as [m [Hm _]]. exists m. exact Hm.
Defined.

End OfScripts.

Module OfCli.

Import Cli CliFacts CliExtras.


End OfCli.

End ExtraWitnesses.
